(** * HLA typing with bwakit: a shallow embedding of [bcbio/hla/bwakit.py]

    The module shells out to [run-HLA], reads the per-locus genotype files
    the tool leaves behind, compares the top call of each locus with an
    optional truth set and writes a seven-column CSV report.

    Layout of this file:
    - [PyStr], [OsPath]: the Python 2 [str] methods the module calls
      ([split], [join], [strip], [replace]), the line iterator of a file
      and the [os.path] helpers;
    - [pyval], [Toolz]: nested dictionaries, [get_in] and [update_in];
    - [result], [World], [M], [Platform]: exceptions, the store of file
      texts with the log of external commands, and the imported functions
      whose code is elsewhere;
    - [Bwakit]: the four functions of the module;
    - [Report]: the words the statements are written in;
    - [Sim]: a platform and a sample store to run the module on;
    - the properties, each followed on the sample store. *)

From Stdlib Require Import Ascii String.
From stdpp Require Import gmap strings list fin_maps fin_sets pretty.
From Equations Require Import Equations.

Set Warnings "-register-all,-clear-no-such-hyp".

(** ** Python 2 byte strings *)

Module PyStr.

(** [s.split(sep)] for a separator of one character: the fields between
    the separators, always at least one field. *)
Fixpoint split (sep : ascii) (s : string) : list string :=
  match s with
  | EmptyString => [EmptyString]
  | String c s' =>
      if Ascii.eqb c sep then EmptyString :: split sep s'
      else match split sep s' with
           | [] => [String c EmptyString]
           | f :: fs => String c f :: fs
           end
  end.

(** [sep.join(l)]. *)
Definition join (sep : string) (l : list string) : string :=
  String.concat sep l.

(** Number of occurrences of a character. *)
Fixpoint count_char (c : ascii) (s : string) : nat :=
  match s with
  | EmptyString => 0
  | String a s' => (if Ascii.eqb a c then 1 else 0) + count_char c s'
  end.

(** The characters [str.strip()] removes: space, tab, newline, carriage
    return, vertical tab and form feed. *)
Definition is_space (c : ascii) : bool :=
  let n := nat_of_ascii c in
  ((n =? 32) || ((9 <=? n) && (n <=? 13)))%nat.

Fixpoint lstrip (s : string) : string :=
  match s with
  | EmptyString => EmptyString
  | String c s' => if is_space c then lstrip s' else s
  end.

Fixpoint rstrip (s : string) : string :=
  match s with
  | EmptyString => EmptyString
  | String c s' =>
      match rstrip s' with
      | EmptyString => if is_space c then EmptyString else String c EmptyString
      | r => String c r
      end
  end.

(** [s.strip()]. *)
Definition strip (s : string) : string := rstrip (lstrip s).

(** Drop the first [n] characters. *)
Fixpoint skip (n : nat) (s : string) : string :=
  match n, s with
  | O, _ => s
  | S _, EmptyString => EmptyString
  | S k, String _ s' => skip k s'
  end.

(** [s.replace(old, new)] for a non-empty [old]: the occurrences of [old]
    are found from the left, without overlap, and each is replaced.  For
    an empty [old] Python puts [new] before every character and at the
    end. *)
Equations replace (old new s : string) : string by wf (String.length s) lt :=
  replace EmptyString new EmptyString := new;
  replace EmptyString new (String c s') :=
    new +:+ String c (replace EmptyString new s');
  replace (String o old') new EmptyString := EmptyString;
  replace (String o old') new (String c s') :=
    if String.prefix (String o old') (String c s')
    then new +:+ replace (String o old') new (skip (String.length old') s')
    else String c (replace (String o old') new s').
Next Obligation.
  intros. simpl.
  assert (Hskip : ∀ n t, String.length (skip n t) ≤ String.length t).
  { intros n; induction n as [|n IH]; intros [|a t]; simpl; try lia.
    specialize (IH t). lia. }
  specialize (Hskip (String.length old') s'). lia.
Qed.

(** The line iterator of a file object: every line keeps its newline, a
    last line without one is a line too, and an empty file has no line. *)
Fixpoint lines (s : string) : list string :=
  match s with
  | EmptyString => []
  | String c s' =>
      if Ascii.eqb c "010" then String c EmptyString :: lines s'
      else match lines s' with
           | [] => [String c EmptyString]
           | l :: ls => String c l :: ls
           end
  end.

End PyStr.

(** ** [os.path] on POSIX paths *)

Module OsPath.

(** [p[:i]] and [p[i:]] for [i = p.rfind('/') + 1]: the text up to and
    including the last slash, and the text after it. *)
Fixpoint rsplit_slash (p : string) : string * string :=
  match p with
  | EmptyString => (EmptyString, EmptyString)
  | String c p' =>
      let '(h, t) := rsplit_slash p' in
      if Ascii.eqb c "/" then (String c h, t)
      else match h with
           | EmptyString => (EmptyString, String c t)
           | _ => (String c h, t)
           end
  end.

(** [os.path.basename]. *)
Definition basename (p : string) : string := snd (rsplit_slash p).

(** [head.rstrip('/')]. *)
Fixpoint rstrip_slash (s : string) : string :=
  match s with
  | EmptyString => EmptyString
  | String c s' =>
      match rstrip_slash s' with
      | EmptyString => if Ascii.eqb c "/" then EmptyString else String c EmptyString
      | r => String c r
      end
  end.

(** [os.path.dirname]: the head without its trailing slashes, unless the
    head is made of slashes only. *)
Definition dirname (p : string) : string :=
  let head := fst (rsplit_slash p) in
  match rstrip_slash head with
  | EmptyString => head
  | stripped => stripped
  end.

Definition startswith_slash (s : string) : bool :=
  match s with
  | String c _ => Ascii.eqb c "/"
  | EmptyString => false
  end.

Fixpoint endswith_slash (s : string) : bool :=
  match s with
  | EmptyString => false
  | String c EmptyString => Ascii.eqb c "/"
  | String _ s' => endswith_slash s'
  end.

(** [os.path.join(a, b)]. *)
Definition join (a b : string) : string :=
  if startswith_slash b then b
  else if String.eqb a "" || endswith_slash a then a +:+ b
  else a +:+ "/" +:+ b.

End OsPath.

(** ** Python values and [toolz] *)

(** The values a pipeline dictionary such as [data] holds. *)
Inductive pyval : Type :=
  | PNone
  | PBool (b : bool)
  | PInt (n : Z)
  | PStr (s : string)
  | PList (l : list pyval)
  | PDict (d : gmap string pyval).

(** Truth value of an object in a condition. *)
Definition truthy (v : pyval) : bool :=
  match v with
  | PNone => false
  | PBool b => b
  | PInt n => negb (n =? 0)%Z
  | PStr s => negb (String.eqb s "")
  | PList l => match l with [] => false | _ => true end
  | PDict d => match map_to_list d with [] => false | _ => true end
  end.

Module Toolz.

(** [reduce(operator.getitem, keys, coll)] for string keys: [None] stands
    for the [KeyError] of a missing key and the [TypeError] of indexing a
    value that is not a dictionary by a string. *)
Fixpoint getitems (keys : list string) (coll : pyval) : option pyval :=
  match keys with
  | [] => Some coll
  | k :: ks =>
      match coll with
      | PDict d => match d !! k with
                   | Some v => getitems ks v
                   | None => None
                   end
      | _ => None
      end
  end.

(** [toolz.get_in(keys, coll, default)]. *)
Definition get_in (keys : list string) (coll : pyval) (dflt : pyval) : pyval :=
  default dflt (getitems keys coll).

(** [toolz.get_in([k1, k2], d, default)] on a dictionary of dictionaries. *)
Definition get_in2 {A} (k1 k2 : string) (d : gmap string (gmap string A))
    (dflt : A) : A :=
  match d !! k1 with
  | Some inner => default dflt (inner !! k2)
  | None => dflt
  end.

(** [toolz.update_in(d, [k1, k2], func)]: a new dictionary in which
    [d[k1][k2]] is [func] of the old value ([None] when there is none);
    the inner dictionary is created when [k1] is new. *)
Definition update_in2 {A} (d : gmap string (gmap string A)) (k1 k2 : string)
    (func : option A → A) : gmap string (gmap string A) :=
  let inner := default ∅ (d !! k1) in
  <[k1 := <[k2 := func (inner !! k2)]> inner]> d.

End Toolz.

(** ** Exceptions, the store, the platform *)

Inductive exn : Type :=
  | ValueError
  | TypeError
  | AttributeError
  | IOError
  | StopIteration
  | UnboundLocalError
  | CalledProcessError.

Inductive result (A : Type) : Type :=
  | Ok (a : A)
  | Raise (e : exn).
Arguments Ok {A} a.
Arguments Raise {A} e.

#[global] Instance result_ret : MRet result := λ A a, Ok a.
#[global] Instance result_bind : MBind result := λ A B f r,
  match r with
  | Ok a => f a
  | Raise e => Raise e
  end.

(** What the module can observe and change: the text of every regular
    file, and the external commands launched so far (oldest first). *)
Record World : Type := MkWorld {
  files : gmap string string;
  cmds : list string
}.

(** Computations that read and change the world and may raise; the world
    reached is kept when they raise. *)
Definition M (A : Type) : Type := World → result A * World.

#[global] Instance M_ret : MRet M := λ A a w, (Ok a, w).
#[global] Instance M_bind : MBind M := λ A B f m w,
  match m w with
  | (Ok a, w') => f a w'
  | (Raise e, w') => (Raise e, w')
  end.

Definition raise {A} (e : exn) : M A := λ w, (Raise e, w).
Definition lift {A} (r : result A) : M A := λ w, (r, w).
Definition gets {A} (f : gmap string string → A) : M A := λ w, (Ok (f (files w)), w).

(** [open(path).read()]. *)
Definition read_file (path : string) : M string := λ w,
  match files w !! path with
  | Some text => (Ok text, w)
  | None => (Raise IOError, w)
  end.

(** The functions the module imports from the rest of bcbio and from the
    standard library, whose code is not part of the module.  Directories
    are not part of the store, so [safe_makedir] only yields the path it
    returns. *)
Record Platform : Type := MkPlatform {
  (** [utils.which]: the path of an executable, [None] when not found *)
  which : string → option string;
  (** [os.path.realpath] *)
  realpath : string → string;
  (** [utils.safe_makedir] *)
  safe_makedir : string → string;
  (** [utils.file_exists] *)
  file_exists : string → gmap string string → bool;
  (** [glob.glob] *)
  glob : string → gmap string string → list string;
  (** [do.run]: the files after the command ran, [None] when it failed *)
  do_run : string → gmap string string → option (gmap string string);
  (** [file_transaction]: the files after the text written inside the
      transaction has been moved to its destination *)
  tx_commit : string → string → gmap string string → gmap string string;
  (** [dd.get_align_bam] *)
  get_align_bam : gmap string pyval → option string;
  (** [dd.get_sample_name] *)
  get_sample_name : gmap string pyval → string;
  (** [csv.reader]: the rows of a text *)
  csv_reader : string → list (list string);
  (** [csv.writer(...).writerow]: the text of one row *)
  csv_writerow : list string → string
}.

(** ** The module *)

Module Bwakit.

(** [_hla_protein]: the group and protein fields of an allele name. *)
Definition _hla_protein (name : string) : string :=
  PyStr.join ":" (take 2 (PyStr.split ":" name)).

(** The truth set: sample, then locus, then the expected alleles. *)
Abbreviation truthset := (gmap string (gmap string (list string))).

(** The local variables of [_organize_calls] that are assigned inside the
    loop over the lines and read after it.  They belong to the function,
    not to one genotype file: [None] is a name not assigned yet. *)
Record Locals : Type := MkLocals {
  call_alleles : option (list string);
  mismatches : option string
}.

Definition unbound : Locals := MkLocals None None.

(** One data row, as handed to [writer.writerow]. *)
Record Row : Type := MkRow {
  r_sample : string;
  r_locus : string;
  r_mismatches : string;
  r_options : nat;
  r_alleles : string;
  r_expected : string;
  r_validates : string
}.

Definition header : list string :=
  ["sample"; "locus"; "mismatches"; "options"; "alleles"; "expected"; "validates"].

(** The cells of a data row; the writer prints the count with [str]. *)
Definition cells (r : Row) : list string :=
  [r_sample r; r_locus r; r_mismatches r; pretty (r_options r);
   r_alleles r; r_expected r; r_validates r].

(** Lines 48-54: the loop over the lines of one genotype file, [i] being
    the index [enumerate] gives to the first line of [ls]. *)
Fixpoint read_calls (i : nat) (ls : list string) (vars : Locals)
    (total_options : gset (string * string))
    : result (Locals * gset (string * string)) :=
  match ls with
  | [] => Ok (vars, total_options)
  | line :: ls' =>
      match take 4 (PyStr.split "009" line) with
      | [_; aone; atwo; m] =>
          let vars' := if (i =? 0)%nat
                       then MkLocals (Some [aone; atwo]) (Some m)
                       else vars in
          let alleles := (_hla_protein aone, _hla_protein atwo) in
          read_calls (S i) ls' vars' ({[alleles]} ∪ total_options)
      | _ => Raise ValueError
      end
  end.

(** Reading a local variable. *)
Definition load {A} (v : option A) : result A :=
  match v with
  | Some a => Ok a
  | None => Raise UnboundLocalError
  end.

(** Lines 56-62: the expected alleles and the validation status. *)
Definition validate (hla_truth : truthset) (sample hla_locus : string)
    (calls : list string) : list string * string :=
  let truth_alleles := Toolz.get_in2 sample hla_locus hla_truth [] in
  match truth_alleles with
  | _ :: _ =>
      let t_cmp : gset string := list_to_set (_hla_protein <$> truth_alleles) in
      let c_cmp : gset string := list_to_set (_hla_protein <$> calls) in
      (truth_alleles,
       if decide (size (t_cmp ∩ c_cmp) = size c_cmp) then "yes" else "no")
  | [] => (truth_alleles, "")
  end.

(** Lines 44-45: the locus named by a genotype file, given the base name
    of the alignment file. *)
Definition locus_of (align_base genotype_file : string) : string :=
  PyStr.replace ".gt" ""
    (PyStr.replace (align_base +:+ ".hla.HLA-") "" (OsPath.basename genotype_file)).

(** [os.path.basename(align_file)]: [None] has no base name. *)
Definition basename_of (align_file : option string) : result string :=
  match align_file with
  | Some a => Ok (OsPath.basename a)
  | None => Raise AttributeError
  end.

(** Lines 46-64: what is done with an open genotype file, given its
    text; it yields the rows it writes. *)
Definition organize_file (hla_truth : truthset) (sample hla_locus text : string)
    (vars : Locals) : result (Locals * list Row) :=
  '(vars', total_options) ← read_calls 0 (PyStr.lines text) vars ∅;
  if (0 <? size total_options)%nat then
    calls ← load (call_alleles vars');
    m ← load (mismatches vars');
    let '(truth_alleles, valstatus) := validate hla_truth sample hla_locus calls in
    Ok (vars', [MkRow sample hla_locus m (size total_options)
                  (PyStr.join ";" calls) (PyStr.join ";" truth_alleles) valstatus])
  else Ok (vars', []).

(** Line 86: the alleles of one truth row. *)
Definition truth_alleles_of (alleles : string) : list string :=
  PyStr.strip <$> PyStr.split ";" alleles.

(** Lines 85-86: the loop over the rows that follow the header. *)
Fixpoint read_truth (rows : list (list string)) (out : truthset)
    : result truthset :=
  match rows with
  | [] => Ok out
  | [] :: rows' => read_truth rows' out
  | [sample; locus; alleles] :: rows' =>
      read_truth rows'
        (Toolz.update_in2 out sample locus (λ _, truth_alleles_of alleles))
  | _ :: rows' => Raise ValueError
  end.

Section WithPlatform.

Variable P : Platform.

(** [get_hla_truthset]. *)
Definition get_hla_truthset (data : gmap string pyval) : M truthset :=
  let val_csv := Toolz.get_in ["config"; "algorithm"; "hlavalidate"] (PDict data) PNone in
  if truthy val_csv then
    match val_csv with
    | PStr path =>
        found ← gets (file_exists P path);
        if found : bool then
          text ← read_file path;
          match csv_reader P text with
          | [] => raise StopIteration
          | _ :: rows => lift (read_truth rows ∅)
          end
        else mret ∅
    | _ => raise TypeError
    end
  else mret ∅.

(** Lines 43-64: the loop over the genotype files. *)
Fixpoint organize_files (hla_truth : truthset) (align_file : option string)
    (sample : string) (genotype_files : list string) (vars : Locals)
    : M (list Row) :=
  match genotype_files with
  | [] => mret []
  | genotype_file :: rest =>
      align_base ← lift (basename_of align_file);
      let hla_locus := locus_of align_base genotype_file in
      text ← read_file genotype_file;
      '(vars', rows) ← lift (organize_file hla_truth sample hla_locus text vars);
      more ← organize_files hla_truth align_file sample rest vars';
      mret (rows ++ more)
  end.

(** Lines 36-64 without the transaction: the rows handed to the writer,
    the header first. *)
Definition report (hla_base : string) (data : gmap string pyval)
    : M (list (list string)) :=
  hla_truth ← get_hla_truthset data;
  let align_file := get_align_bam P data in
  let sample := get_sample_name P data in
  genotype_files ← gets (glob P (hla_base +:+ ".HLA-*.gt"));
  rows ← organize_files hla_truth align_file sample genotype_files unbound;
  mret (header :: (cells <$> rows)).

(** Leaving the [file_transaction] block without an exception. *)
Definition commit (out_file text : string) : M unit := λ w,
  (Ok (), MkWorld (tx_commit P out_file text (files w)) (cmds w)).

(** [_organize_calls]: the report is written to a temporary file that
    takes the place of [out_file] when the block ends without raising. *)
Definition _organize_calls (out_file hla_base : string)
    (data : gmap string pyval) : M string :=
  written ← report hla_base data;
  _ ← commit out_file (String.concat "" (csv_writerow P <$> written));
  mret out_file.

(** [do.run(cmd, descr)]. *)
Definition run_command (cmd : string) : M unit := λ w,
  match do_run P cmd (files w) with
  | Some files' => (Ok (), MkWorld files' (cmds w ++ [cmd]))
  | None => (Raise CalledProcessError, MkWorld (files w) (cmds w ++ [cmd]))
  end.

(** Lines 22-23: the common prefix of the files of the typing. *)
Definition hla_base_of (align_file : string) : string :=
  OsPath.join
    (safe_makedir P (OsPath.join (OsPath.dirname align_file) "hla"))
    (OsPath.basename align_file +:+ ".hla").

(** Line 27: the command line. *)
Definition run_hla_cmd (bwakit_dir hla_base : string) : string :=
  bwakit_dir +:+ "/run-HLA " +:+ hla_base.

(** [run].  [os.path.realpath] and [os.path.dirname] raise on [None]. *)
Definition run (data : gmap string pyval) : M (gmap string pyval) :=
  match which P "run-bwamem" with
  | None => raise AttributeError
  | Some exe =>
      let bwakit_dir := OsPath.dirname (realpath P exe) in
      match get_align_bam P data with
      | None => raise AttributeError
      | Some align_file =>
          let hla_base := hla_base_of align_file in
          found ← gets (glob P (hla_base +:+ ".*"));
          if (0 <? length found)%nat then
            let out_file := hla_base +:+ ".top" in
            done ← gets (file_exists P out_file);
            out_file' ← (if negb done then
                           _ ← run_command (run_hla_cmd bwakit_dir hla_base);
                           _organize_calls out_file hla_base data
                         else mret out_file);
            mret (<["hla" := PDict {["calls" := PStr out_file']}]> data)
          else mret data
      end
  end.

End WithPlatform.

End Bwakit.

(** ** Vocabulary of the statements *)

Module Report.

(** The tab-separated fields of a line of a genotype file. *)
Definition fields (line : string) : list string := PyStr.split "009" line.

(** Field [n] of a line, counted from zero. *)
Definition field (n : nat) (line : string) : string := nth n (fields line) "".

(** A record line: one with at least four fields. *)
Definition record_line (line : string) : Prop := 4 ≤ length (fields line).

#[global] Instance record_line_dec line : Decision (record_line line) :=
  decide (4 ≤ length (fields line)).

(** The protein pair of a line: [_hla_protein] of its second and third
    fields. *)
Definition protein_pair (line : string) : string * string :=
  (Bwakit._hla_protein (field 1 line), Bwakit._hla_protein (field 2 line)).

(** The distinct protein pairs of some lines. *)
Definition protein_pairs (ls : list string) : gset (string * string) :=
  list_to_set (protein_pair <$> ls).

(** The values of the loop variables once the lines [ls], the first of
    index [i], have been read. *)
Definition locals_after (i : nat) (ls : list string) (vars : Bwakit.Locals)
    : Bwakit.Locals :=
  match i, ls with
  | O, l0 :: _ => Bwakit.MkLocals (Some [field 1 l0; field 2 l0]) (Some (field 3 l0))
  | _, _ => vars
  end.

(** Every protein of [calls] occurs among the proteins of [truth]. *)
Definition proteins_covered (calls truth : list string) : Prop :=
  Forall (λ p, p ∈ Bwakit._hla_protein <$> truth) (Bwakit._hla_protein <$> calls).

(** The validation status in the words of the report's description. *)
Definition validation (calls truth : list string) : string :=
  match truth with
  | [] => ""
  | _ :: _ => if decide (proteins_covered calls truth) then "yes" else "no"
  end.

(** The row described for a genotype file of lines [l0 :: rest]. *)
Definition described_row (hla_truth : Bwakit.truthset) (sample locus l0 : string)
    (rest : list string) : Bwakit.Row :=
  let truth := Toolz.get_in2 sample locus hla_truth [] in
  Bwakit.MkRow sample locus (field 3 l0) (size (protein_pairs (l0 :: rest)))
    (field 1 l0 +:+ ";" +:+ field 2 l0) (PyStr.join ";" truth)
    (validation [field 1 l0; field 2 l0] truth).

(** The rows described for the genotype file [gf] of the store [fs]: one
    row when the file has a line, none otherwise. *)
Definition described_rows (hla_truth : Bwakit.truthset) (align_base sample : string)
    (fs : gmap string string) (gf : string) : list Bwakit.Row :=
  match PyStr.lines <$> fs !! gf with
  | Some (l0 :: rest) =>
      [described_row hla_truth sample (Bwakit.locus_of align_base gf) l0 rest]
  | _ => []
  end.

(** A genotype file the loop can read to its end: it is in the store and
    each of its lines is a record line. *)
Definition readable (fs : gmap string string) (gf : string) : Prop :=
  ∃ text, fs !! gf = Some text ∧ Forall record_line (PyStr.lines text).

(** A genotype file with at least one line. *)
Definition has_line (fs : gmap string string) (gf : string) : bool :=
  match PyStr.lines <$> fs !! gf with
  | Some (_ :: _) => true
  | _ => false
  end.

(** The entry of a truth set for a sample and a locus. *)
Definition truth_entry {A} (sample locus : string) (d : gmap string (gmap string A))
    : option A :=
  d !! sample ≫= λ inner, inner !! locus.

(** The alleles field of a truth row, if it is a row for the sample and
    the locus. *)
Definition row_for (sample locus : string) (row : list string) : option string :=
  match row with
  | [s; l; alleles] => if decide (s = sample ∧ l = locus) then Some alleles else None
  | _ => None
  end.

(** The alleles field of the last row for the sample and the locus. *)
Definition last_alleles (sample locus : string) (rows : list (list string))
    : option string :=
  last (omap (row_for sample locus) rows).

(** A row the loop of [get_hla_truthset] accepts: an empty one, which is
    skipped, or one of three fields. *)
Definition truth_row (row : list string) : Prop := row = [] ∨ length row = 3.

(** A string without a given prefix. *)
Definition remove_prefix (p s : string) : string :=
  if String.prefix p s then PyStr.skip (String.length p) s else s.

(** A string without a given suffix. *)
Fixpoint remove_suffix (x s : string) : string :=
  match s with
  | EmptyString => EmptyString
  | String c s' => if String.eqb s x then EmptyString else String c (remove_suffix x s')
  end.

(** The base name of the alignment file, when it has one. *)
Definition align_base (P : Platform) (data : gmap string pyval) : string :=
  default "" (OsPath.basename <$> get_align_bam P data).

(** The genotype files of a run: the paths line 43 iterates over. *)
Definition genotype_files (P : Platform) (hla_base : string) (w : World)
    : list string :=
  glob P (hla_base +:+ ".HLA-*.gt") (files w).

End Report.

(** ** A platform to run the module on *)

Module Sim.

Definition TAB : string := String "009" "".
Definition NL : string := String "010" "".
Definition CRLF : string := String "013" (String "010" "").

(** A line of a genotype file. *)
Definition gt_line (fields : list string) : string := PyStr.join TAB fields +:+ NL.

(** Shell-style matching with [*] as the only special character; a star
    does not cross a slash. *)
Fixpoint wildcard (pat : string) : string → bool :=
  match pat with
  | EmptyString => λ name, String.eqb name ""
  | String c pat' =>
      if Ascii.eqb c "*" then
        fix star (name : string) : bool :=
          wildcard pat' name ||
          match name with
          | String d name' => negb (Ascii.eqb d "/") && star name'
          | EmptyString => false
          end
      else λ name,
        match name with
        | String d name' => Ascii.eqb c d && wildcard pat' name'
        | EmptyString => false
        end
  end.

(** A reader of comma-separated text without quoting: a blank line is an
    empty row. *)
Definition read_row (line : string) : list string :=
  match PyStr.strip line with
  | EmptyString => []
  | text => PyStr.split "," text
  end.

(** The platform: [tool] is what the external command does to the files.
    A file exists when it is in the store and is not empty. *)
Definition platform (tool : string → gmap string string → option (gmap string string))
    : Platform :=
  {| which := λ _, Some "/usr/local/share/bwakit/run-bwamem";
     realpath := λ p, p;
     safe_makedir := λ d, d;
     file_exists := λ p fs, match fs !! p with
                            | Some (String _ _) => true
                            | _ => false
                            end;
     glob := λ pat fs, filter (λ name, wildcard pat name = true) (map_to_list fs).*1;
     do_run := tool;
     tx_commit := λ out text fs, <[out := text]> fs;
     get_align_bam := λ data, match data !! "align_bam" with
                              | Some (PStr a) => Some a
                              | _ => None
                              end;
     get_sample_name := λ data,
       match Toolz.get_in ["rgnames"; "sample"] (PDict data) PNone with
       | PStr name => name
       | _ => ""
       end;
     csv_reader := λ text, read_row <$> PyStr.lines text;
     csv_writerow := λ row, PyStr.join "," row +:+ CRLF |}.

(** A tool that leaves the files as they are. *)
Definition idle : Platform := platform (λ _ fs, Some fs).

(** One sample, aligned to [/work/align/s1.bam]. *)
Definition sample_data (config : gmap string pyval) : gmap string pyval :=
  {[ "align_bam" := PStr "/work/align/s1.bam";
     "rgnames" := PDict {[ "sample" := PStr "s1" ]};
     "config" := PDict {[ "algorithm" := PDict config ]} ]}.

Definition hla_base : string := "/work/align/hla/s1.bam.hla".

Definition truth_csv : string :=
  "sample,locus,alleles" +:+ NL +:+
  "s1,A,HLA-A*01:01; HLA-A*02:01:07" +:+ NL +:+
  NL +:+
  "s1,B,HLA-B*07:02" +:+ NL +:+
  "s1,B,HLA-B*08:01;HLA-B*44:02" +:+ NL.

Definition gt_A : string :=
  gt_line ["GT"; "HLA-A*01:01:01:01"; "HLA-A*02:01:01"; "0"; "60"] +:+
  gt_line ["GT"; "HLA-A*01:01:02"; "HLA-A*02:01:05"; "1"; "58"] +:+
  gt_line ["GT"; "HLA-A*01:02"; "HLA-A*02:01:01"; "2"; "41"].

Definition gt_B : string :=
  gt_line ["GT"; "HLA-B*07:02:01"; "HLA-B*08:01:01"; "3"; "37"].

(** The store after typing: loci A and B were called, C has an empty
    file. *)
Definition typed_files : gmap string string :=
  {[ "/work/truth.csv" := truth_csv;
     "/work/align/hla/s1.bam.hla.HLA-A.gt" := gt_A;
     "/work/align/hla/s1.bam.hla.HLA-B.gt" := gt_B;
     "/work/align/hla/s1.bam.hla.HLA-C.gt" := "" ]}.

(** A store with a genotype file whose name has [.gt] twice. *)
Definition doubled : World :=
  MkWorld {[ "/work/align/hla/s1.bam.hla.HLA-A.gt.gt" := gt_A ]} [].

(** A store with a genotype file whose only line has two fields. *)
Definition broken : World :=
  MkWorld {[ "/work/align/hla/s1.bam.hla.HLA-A.gt" := gt_line ["GT"; "HLA-A*01:01"] ]} [].

(** That store, before any command was run. *)
Definition typed : World := MkWorld typed_files [].

(** The typed store with a report from an earlier run. *)
Definition reported : World :=
  MkWorld (<[ "/work/align/hla/s1.bam.hla.top" := "an earlier report" ]> typed_files) [].

(** A store without any file of the typing. *)
Definition untyped : World := MkWorld {[ "/work/truth.csv" := truth_csv ]} [].

(** The command line of the typing. *)
Definition cmd : string :=
  "/usr/local/share/bwakit/run-HLA /work/align/hla/s1.bam.hla".

Definition with_truth : gmap string pyval :=
  sample_data {[ "hlavalidate" := PStr "/work/truth.csv" ]}.

Definition without_truth : gmap string pyval := sample_data ∅.

End Sim.

(** * Properties *)

(** ** Strings *)

Section StringFacts.

Import PyStr.

Implicit Types (s t : string) (c sep : ascii) (l : list string).

Lemma split_not_nil sep s : split sep s ≠ [].
Proof.
  destruct s as [|c s]; simpl; [done|].
  destruct (Ascii.eqb c sep); [done|]. by destruct (split sep s).
Qed.

Lemma split_length sep s : length (split sep s) = S (count_char sep s).
Proof.
  induction s as [|c s IH]; simpl; [done|].
  destruct (Ascii.eqb c sep); simpl; [by rewrite IH|].
  destruct (split sep s); simpl in *; [done|lia].
Qed.

(** No field of a split holds the separator. *)
Lemma split_fields sep s : Forall (λ f, count_char sep f = 0) (split sep s).
Proof.
  induction s as [|c s IH]; simpl; [by repeat constructor|].
  destruct (Ascii.eqb c sep) eqn:Hc; [by constructor|].
  destruct (split sep s) as [|f fs]; simpl.
  - repeat constructor. simpl. by rewrite Hc.
  - inversion IH; subst. constructor; [|done]. simpl. by rewrite Hc.
Qed.

(** Joining the fields with the separator gives the string back. *)
Lemma join_split sep s : join (String sep "") (split sep s) = s.
Proof.
  unfold join. induction s as [|c s IH]; simpl; [done|].
  destruct (Ascii.eqb_spec c sep) as [->|Hne].
  - pose proof (split_not_nil sep s) as Hnn.
    destruct (split sep s) as [|f fs]; [done|].
    simpl in *. by rewrite IH.
  - destruct (split sep s) as [|f fs]; simpl in *; [by rewrite <- IH|].
    destruct fs; simpl in *; by rewrite <- IH.
Qed.

Lemma split_app_sep sep s t :
  count_char sep s = 0 → split sep (s +:+ String sep t) = s :: split sep t.
Proof.
  induction s as [|c s IH]; simpl.
  - by rewrite Ascii.eqb_refl.
  - destruct (Ascii.eqb c sep); [done|]. intros H. by rewrite IH.
Qed.

Lemma split_no_sep sep s : count_char sep s = 0 → split sep s = [s].
Proof.
  induction s as [|c s IH]; simpl; [done|].
  destruct (Ascii.eqb c sep); [done|]. intros H. by rewrite IH.
Qed.

(** Splitting a join of separator-free fields gives the fields back. *)
Lemma split_join sep l :
  l ≠ [] → Forall (λ f, count_char sep f = 0) l →
  split sep (join (String sep "") l) = l.
Proof.
  unfold join. induction l as [|x l IH]; [done|]. intros _ Hall.
  inversion Hall as [|? ? Hx Hl]; subst.
  destruct l as [|y l].
  - by apply split_no_sep.
  - change (String.concat (String sep "") (x :: y :: l))
      with (x +:+ String sep (String.concat (String sep "") (y :: l))).
    rewrite split_app_sep by done. f_equal. by apply IH.
Qed.

End StringFacts.

(** ** [_hla_protein] *)

Section ProteinFacts.

Import PyStr Bwakit.

Lemma hla_protein_split s :
  split ":" (_hla_protein s) = take 2 (split ":" s).
Proof.
  unfold _hla_protein. apply split_join.
  - pose proof (split_not_nil ":" s). by destruct (split ":" s).
  - apply Forall_take, split_fields.
Qed.

(** C8: [_hla_protein] is idempotent, and it leaves a name with at most
    one colon as it is. *)
Theorem hla_protein_idempotent :
  (∀ s, _hla_protein (_hla_protein s) = _hla_protein s) ∧
  (∀ s, count_char ":" s ≤ 1 → _hla_protein s = s).
Proof.
  split; intros s.
  - unfold _hla_protein at 1. rewrite hla_protein_split.
    by rewrite take_take, Nat.min_id.
  - intros Hcount. unfold _hla_protein.
    rewrite take_ge by (rewrite split_length; lia).
    apply join_split.
Qed.

Lemma hla_protein_idempotent_witness :
  count_char ":" "HLA-A*01:01" ≤ 1 ∧ _hla_protein "HLA-A*01:01" = "HLA-A*01:01".
Proof.
  split; [vm_compute; lia|].
  apply (proj2 hla_protein_idempotent). vm_compute; lia.
Defined.

End ProteinFacts.

(** ** The loop over the lines of a genotype file *)

Section ReadCalls.

Import PyStr Bwakit Report.

Implicit Types (ls : list string) (vars : Locals) (acc : gset (string * string)).

(** One turn of the loop: a line with fewer than four fields does not
    unpack. *)
Lemma read_calls_cons i line ls vars acc :
  read_calls i (line :: ls) vars acc =
  if decide (record_line line)
  then read_calls (S i) ls (locals_after i [line] vars) ({[protein_pair line]} ∪ acc)
  else Raise ValueError.
Proof.
  destruct (decide (record_line line)) as [H|H];
    unfold record_line, protein_pair, locals_after, field, fields in *; simpl;
    destruct (split "009" line) as [|f0 [|f1 [|f2 [|f3 rest]]]]; simpl in *;
    try lia; try done.
  by destruct i.
Qed.

(** The whole loop. *)
Lemma read_calls_spec ls : ∀ i vars acc,
  read_calls i ls vars acc =
  if decide (Forall record_line ls)
  then Ok (locals_after i ls vars, protein_pairs ls ∪ acc)
  else Raise ValueError.
Proof.
  induction ls as [|line ls IH]; intros i vars acc.
  - rewrite decide_True by constructor. simpl.
    replace (locals_after i [] vars) with vars by (by destruct i).
    replace (protein_pairs [] ∪ acc) with acc; [done|].
    unfold protein_pairs. set_solver.
  - rewrite read_calls_cons.
    destruct (decide (Forall record_line (line :: ls))) as [H|H].
    + inversion H as [|? ? Hl Hls]; subst.
      rewrite decide_True by done. rewrite IH, decide_True by done.
      replace (locals_after (S i) ls (locals_after i [line] vars))
        with (locals_after i (line :: ls) vars) by (by destruct i).
      replace (protein_pairs ls ∪ ({[protein_pair line]} ∪ acc))
        with (protein_pairs (line :: ls) ∪ acc); [done|].
      unfold protein_pairs. rewrite fmap_cons. simpl. set_solver.
    + destruct (decide (record_line line)) as [Hl|Hl]; [|done].
      rewrite IH, decide_False; [done|]. intros Hls. apply H. by constructor.
Qed.

Lemma protein_pairs_size ls : size (protein_pairs ls) = 0 ↔ ls = [].
Proof.
  split.
  - intros H. apply size_empty_iff in H. destruct ls as [|l ls]; [done|].
    unfold protein_pairs in H. rewrite fmap_cons in H. simpl in H. set_solver.
  - intros ->. done.
Qed.

(** After the loop, a non-empty [total_options] means the two variables
    are bound, whatever they were before. *)
Lemma read_calls_bound ls vars vars' opts :
  read_calls 0 ls vars ∅ = Ok (vars', opts) → 0 < size opts →
  ∃ l0 rest, ls = l0 :: rest ∧
    vars' = MkLocals (Some [field 1 l0; field 2 l0]) (Some (field 3 l0)).
Proof.
  rewrite read_calls_spec. case_decide; [|done]. intros [= <- <-] Hsize.
  destruct ls as [|l0 rest]; [|by eauto].
  rewrite union_empty_r_L in Hsize.
  pose proof (proj2 (protein_pairs_size []) eq_refl). lia.
Qed.

End ReadCalls.

(** ** One genotype file *)

Section OrganizeFile.

Import PyStr Bwakit Report.

(** The test of line 60 is a test of inclusion. *)
Lemma size_intersection_eq (T C : gset string) :
  size (T ∩ C) = size C ↔ C ⊆ T.
Proof.
  split.
  - intros Hsize.
    assert (T ∩ C = C) as Heq;
      [apply set_subseteq_size_eq; [set_solver|lia]|set_solver].
  - intros Hsub. f_equal. set_solver.
Qed.

Lemma proteins_covered_subseteq calls truth :
  proteins_covered calls truth ↔
  (list_to_set (_hla_protein <$> calls) : gset string)
    ⊆ list_to_set (_hla_protein <$> truth).
Proof.
  unfold proteins_covered. rewrite Forall_forall. set_solver.
Qed.

(** The source's status is the described one. *)
Lemma validate_spec hla_truth sample locus calls :
  validate hla_truth sample locus calls =
  (Toolz.get_in2 sample locus hla_truth [],
   validation calls (Toolz.get_in2 sample locus hla_truth [])).
Proof.
  unfold validate, validation.
  destruct (Toolz.get_in2 sample locus hla_truth []) as [|t ts]; [done|].
  f_equal. repeat case_decide; try done.
  - exfalso. by apply H0, proteins_covered_subseteq, size_intersection_eq.
  - exfalso. by apply H, size_intersection_eq, proteins_covered_subseteq.
Qed.

Lemma protein_pairs_cons_size l0 rest : 0 < size (protein_pairs (l0 :: rest)).
Proof.
  pose proof (protein_pairs_size (l0 :: rest)) as [H _].
  destruct (size (protein_pairs (l0 :: rest))); [by specialize (H eq_refl)|lia].
Qed.

(** What the loop body does with one genotype file, in full. *)
Lemma organize_file_spec hla_truth sample locus text vars :
  organize_file hla_truth sample locus text vars =
  if decide (Forall record_line (lines text))
  then Ok (locals_after 0 (lines text) vars,
           match lines text with
           | l0 :: rest => [described_row hla_truth sample locus l0 rest]
           | [] => []
           end)
  else Raise ValueError.
Proof.
  unfold organize_file.
  rewrite read_calls_spec.
  destruct (decide (Forall record_line (lines text))) as [Hls|Hls]; [|reflexivity].
  cbn [mbind result_bind]. rewrite union_empty_r_L.
  destruct (lines text) as [|l0 rest].
  - done.
  - pose proof (protein_pairs_cons_size l0 rest) as Hpos.
    apply Nat.ltb_lt in Hpos. rewrite Hpos.
    cbn [locals_after call_alleles mismatches load mbind result_bind].
    rewrite validate_spec, ?union_empty_r_L. reflexivity.
Qed.

End OrganizeFile.

(** ** The loop over the genotype files and the report *)

Section Organize.

Import PyStr Bwakit Report.

Variable P : Platform.

Implicit Types (w : World) (gfs : list string) (vars : Locals).

Lemma M_bind_eq {A B} (m : M A) (f : A → M B) w :
  (m ≫= f) w =
  match m w with
  | (Ok a, w') => f a w'
  | (Raise e, w') => (Raise e, w')
  end.
Proof. reflexivity. Qed.

(** The truth set is read without changing anything. *)
Lemma get_hla_truthset_world data w :
  snd (get_hla_truthset P data w) = w.
Proof.
  unfold get_hla_truthset.
  destruct (truthy _); [|done].
  destruct (Toolz.get_in _ _ _); try done.
  rewrite M_bind_eq. unfold gets. destruct (file_exists P s (files w)); [|done].
  rewrite M_bind_eq. unfold read_file. destruct (files w !! s); [|done].
  by destruct (csv_reader P s0).
Qed.

(** With well-formed genotype files the loop writes the described rows,
    file after file. *)
Lemma organize_files_ok hla_truth a sample gfs : ∀ vars w,
  Forall (readable (files w)) gfs →
  organize_files hla_truth (Some a) sample gfs vars w =
  (Ok (gfs ≫= described_rows hla_truth (OsPath.basename a) sample (files w)), w).
Proof.
  induction gfs as [|gf gfs IH]; intros vars w Hall; [done|].
  inversion Hall as [|? ? (text & Hgf & Hlines) Hrest]; subst.
  cbn [organize_files]. rewrite M_bind_eq. unfold lift at 1. cbn [basename_of].
  rewrite M_bind_eq. unfold read_file at 1. rewrite Hgf.
  rewrite M_bind_eq. unfold lift. rewrite organize_file_spec.
  rewrite decide_True by done. rewrite M_bind_eq, IH by done.
  unfold mret, M_ret. do 2 f_equal.
  cbn [mbind list_bind]. f_equal. unfold described_rows. rewrite Hgf. simpl.
  by destruct (lines text).
Qed.

(** When the loop ends without raising, every genotype file was
    well-formed, the alignment file had a name if there was a file at
    all, and nothing changed. *)
Lemma organize_files_inv hla_truth align sample gfs : ∀ vars w rows w',
  organize_files hla_truth align sample gfs vars w = (Ok rows, w') →
  w' = w ∧ Forall (readable (files w)) gfs ∧ (gfs = [] ∨ is_Some align).
Proof.
  induction gfs as [|gf gfs IH]; intros vars w rows w'.
  - intros [= <- <-]. auto.
  - cbn [organize_files]. rewrite M_bind_eq. unfold lift at 1.
    destruct align as [a|]; [|done]. cbn [basename_of].
    rewrite M_bind_eq. unfold read_file at 1.
    destruct (files w !! gf) as [text|] eqn:Hgf; [|done].
    rewrite M_bind_eq. unfold lift.
    rewrite organize_file_spec.
    destruct (decide (Forall record_line (lines text))) as [Hls|Hls]; [|done].
    rewrite M_bind_eq.
    destruct (organize_files _ _ _ _ _ _) as [[more|e] w1] eqn:Hrec; [|done].
    intros [= <- <-]. apply IH in Hrec as (-> & Hall & _).
    split; [done|]. split; [|by eauto].
    constructor; [|done]. by exists text.
Qed.

(** The rows of a finished report. *)
Lemma report_inv hla_base data w written w' :
  report P hla_base data w = (Ok written, w') →
  ∃ hla_truth,
    get_hla_truthset P data w = (Ok hla_truth, w) ∧
    w' = w ∧
    Forall (readable (files w)) (genotype_files P hla_base w) ∧
    written = header :: (cells <$>
      (genotype_files P hla_base w ≫=
         described_rows hla_truth (align_base P data) (get_sample_name P data) (files w))).
Proof.
  unfold report. rewrite M_bind_eq.
  pose proof (get_hla_truthset_world data w) as Hw.
  destruct (get_hla_truthset P data w) as [[hla_truth|e] w0]; simpl in Hw; subst w0; [|done].
  rewrite M_bind_eq. unfold gets at 1. rewrite M_bind_eq.
  destruct (organize_files _ _ _ _ _ _) as [[rows|e] w1] eqn:Hrows; [|done].
  intros [= <- <-].
  pose proof Hrows as (-> & Hall & Halign)%organize_files_inv.
  exists hla_truth. repeat split; try done.
  unfold genotype_files, align_base in *.
  destruct Halign as [Hnil|[a Ha]].
  - rewrite Hnil in *. simpl in Hrows.
    by injection Hrows as <-.
  - rewrite Ha in *. rewrite organize_files_ok in Hrows by done.
    by injection Hrows as <-.
Qed.

(** Conversely, a readable truth set and well-formed genotype files give
    a report. *)
Lemma report_ok hla_base data w hla_truth a :
  get_hla_truthset P data w = (Ok hla_truth, w) →
  get_align_bam P data = Some a →
  Forall (readable (files w)) (genotype_files P hla_base w) →
  report P hla_base data w =
  (Ok (header :: (cells <$>
      (genotype_files P hla_base w ≫=
         described_rows hla_truth (align_base P data) (get_sample_name P data) (files w)))),
   w).
Proof.
  intros Htruth Ha Hall. unfold report, align_base.
  rewrite M_bind_eq, Htruth, M_bind_eq. unfold gets at 1.
  rewrite M_bind_eq, Ha, organize_files_ok by done. done.
Qed.

End Organize.

(** ** [str.replace] and the locus of a genotype file *)

Section ReplaceFacts.

Import PyStr Bwakit.

Implicit Types (s t old new : string) (c : ascii).

Lemma prefix_cons o old a s :
  String.prefix (String o old) (String a s) = Ascii.eqb o a && String.prefix old s.
Proof.
  cbn [String.prefix]. destruct (ascii_dec o a) as [->|Hne].
  - by rewrite Ascii.eqb_refl.
  - apply Ascii.eqb_neq in Hne. by rewrite Hne.
Qed.

Lemma prefix_app old t : String.prefix old (old +:+ t) = true.
Proof.
  induction old as [|o old IH]; [by destruct t|].
  change (String o old +:+ t) with (String o (old +:+ t)).
  by rewrite prefix_cons, Ascii.eqb_refl.
Qed.

Lemma skip_app old t : skip (String.length old) (old +:+ t) = t.
Proof. induction old as [|o old IH]; simpl; [by destruct t|done]. Qed.

(** A prefix has no more of a character than the whole. *)
Lemma prefix_count c old s :
  String.prefix old s = true → count_char c old ≤ count_char c s.
Proof.
  revert s; induction old as [|o old IH]; intros [|a s]; try done;
    [simpl; lia|].
  rewrite prefix_cons. intros [Hoa%Ascii.eqb_eq Hpre%IH]%andb_true_iff.
  subst. simpl. lia.
Qed.

(** An occurrence at the front is replaced, and the search goes on after
    it. *)
Lemma replace_front o old new t :
  replace (String o old) new (String o old +:+ t) =
  new +:+ replace (String o old) new t.
Proof.
  change (String o old +:+ t) with (String o (old +:+ t)).
  rewrite replace_equation_4.
  change (String o (old +:+ t)) with (String o old +:+ t).
  by rewrite prefix_app, skip_app.
Qed.

(** A string with fewer of some character than [old] has no occurrence
    of [old], and is left as it is. *)
Lemma replace_fewer c o old new s :
  count_char c s < count_char c (String o old) →
  replace (String o old) new s = s.
Proof.
  induction s as [|a s IH]; intros Hlt.
  - by rewrite replace_equation_3.
  - rewrite replace_equation_4.
    destruct (String.prefix (String o old) (String a s)) eqn:Hpre.
    + apply (prefix_count c) in Hpre. lia.
    + rewrite IH; [done|]. simpl in *. lia.
Qed.

(** Removing [".gt"] from a name without a dot that is followed by
    [".gt"] leaves the name. *)
Lemma replace_gt_suffix s :
  count_char "." s = 0 → replace ".gt" "" (s +:+ ".gt") = s.
Proof.
  induction s as [|a s IH]; intros Hdots; [done|].
  change (String a s +:+ ".gt") with (String a (s +:+ ".gt")).
  rewrite replace_equation_4, prefix_cons.
  simpl in Hdots. rewrite Ascii.eqb_sym.
  destruct (Ascii.eqb a "."); [done|].
  cbn [andb]. by rewrite IH.
Qed.

Lemma count_char_app c s t :
  count_char c (s +:+ t) = count_char c s + count_char c t.
Proof. induction s as [|a s IH]; simpl; [done|]. rewrite IH. lia. Qed.

(** Lines 44-45 on a file named as the tool names them, for a locus
    without a dot. *)
Lemma locus_of_plain align_base locus genotype_file :
  count_char "." locus = 0 →
  OsPath.basename genotype_file = (align_base +:+ ".hla.HLA-") +:+ locus +:+ ".gt" →
  locus_of align_base genotype_file = locus.
Proof.
  intros Hdots Hbase. unfold locus_of. rewrite Hbase.
  assert (2 ≤ count_char "." (align_base +:+ ".hla.HLA-")) as Htwo.
  { rewrite count_char_app. simpl. lia. }
  destruct (align_base +:+ ".hla.HLA-") as [|o old]; [simpl in Htwo; lia|].
  rewrite replace_front. change ("" +:+ ?x) with x.
  rewrite (replace_fewer "." o old); [by apply replace_gt_suffix|].
  rewrite count_char_app, Hdots. simpl in *. lia.
Qed.

End ReplaceFacts.

(** ** The rows of the report *)

Section Rows.

Import PyStr Bwakit Report.

Variable P : Platform.

Implicit Types (w : World) (r : Row) (fs : gmap string string).

(** Every described row comes from a genotype file with a first line. *)
Lemma described_rows_elem hla_truth ab sample fs gfs r :
  r ∈ gfs ≫= described_rows hla_truth ab sample fs →
  ∃ gf text l0 rest,
    gf ∈ gfs ∧ fs !! gf = Some text ∧ lines text = l0 :: rest ∧
    r = described_row hla_truth sample (locus_of ab gf) l0 rest.
Proof.
  intros (gf & Hr & Hgf)%list_elem_of_bind. unfold described_rows in Hr.
  destruct (fs !! gf) as [text|] eqn:Htext; simpl in Hr; [|by apply elem_of_nil in Hr].
  destruct (lines text) as [|l0 rest] eqn:Hlines; [by apply elem_of_nil in Hr|].
  apply list_elem_of_singleton in Hr. by exists gf, text, l0, rest.
Qed.

(** The described rows are, in order, one for each file with a line. *)
Lemma described_rows_filter hla_truth ab sample fs gfs :
  Forall2 (λ gf r, ∃ text l0 rest,
             fs !! gf = Some text ∧ lines text = l0 :: rest ∧
             r = described_row hla_truth sample (locus_of ab gf) l0 rest)
    (filter (λ gf, has_line fs gf = true) gfs)
    (gfs ≫= described_rows hla_truth ab sample fs).
Proof.
  induction gfs as [|gf gfs IH]; [constructor|].
  cbn [mbind list_bind].
  destruct (fs !! gf) as [text|] eqn:Htext;
    [destruct (lines text) as [|l0 rest] eqn:Hlines|].
  - rewrite filter_cons_False; [|unfold has_line; by rewrite Htext; simpl; rewrite Hlines].
    unfold described_rows at 1. rewrite Htext. simpl. by rewrite Hlines.
  - rewrite filter_cons_True; [|unfold has_line; by rewrite Htext; simpl; rewrite Hlines].
    unfold described_rows at 1. rewrite Htext. simpl. rewrite Hlines.
    constructor; [|done]. by exists text, l0, rest.
  - rewrite filter_cons_False; [|unfold has_line; by rewrite Htext].
    unfold described_rows at 1. by rewrite Htext.
Qed.



End Rows.

Section RowsExamples.

Import PyStr Bwakit Report.

(** The report of the typed store, with the truth set. *)
Example report_with_truth :
  report Sim.idle Sim.hla_base Sim.with_truth Sim.typed =
  (Ok [header;
       ["s1"; "A"; "0"; "2"; "HLA-A*01:01:01:01;HLA-A*02:01:01";
        "HLA-A*01:01;HLA-A*02:01:07"; "yes"];
       ["s1"; "B"; "3"; "1"; "HLA-B*07:02:01;HLA-B*08:01:01";
        "HLA-B*08:01;HLA-B*44:02"; "no"]],
   Sim.typed).
Proof. vm_compute. reflexivity. Qed.


End RowsExamples.

(** ** What a row takes from its genotype file *)

Section FirstLine.

Import PyStr Bwakit Report.




(** C9: a genotype file without a line gets no row and raises nothing, and
    the loop goes on with the next file; after the loop over the lines, a
    non-empty [total_options] comes with at least one line and with both
    variables bound, so that reading them never fails. *)
Theorem empty_genotype_file :
  (∀ hla_truth sample locus text vars,
     lines text = [] →
     organize_file hla_truth sample locus text vars = Ok (vars, [])) ∧
  (∀ hla_truth a sample gf gfs text vars w,
     files w !! gf = Some text → lines text = [] →
     organize_files hla_truth (Some a) sample (gf :: gfs) vars w =
     organize_files hla_truth (Some a) sample gfs vars w) ∧
  (∀ ls vars vars' opts,
     read_calls 0 ls vars ∅ = Ok (vars', opts) → 0 < size opts →
     ls ≠ [] ∧ is_Some (call_alleles vars') ∧ is_Some (mismatches vars')) ∧
  (∀ hla_truth sample locus text vars,
     organize_file hla_truth sample locus text vars ≠ Raise UnboundLocalError).
Proof.
  assert (Hempty : ∀ hla_truth sample locus text vars,
     lines text = [] →
     organize_file hla_truth sample locus text vars = Ok (vars, [])).
  { intros hla_truth sample locus text vars Hlines.
    rewrite organize_file_spec, Hlines. by rewrite decide_True by constructor. }
  split; [done|]. split; [|split].
  - intros hla_truth a sample gf gfs text vars w Htext Hlines.
    cbn [organize_files]. rewrite M_bind_eq. unfold lift at 1. cbn [basename_of].
    rewrite M_bind_eq. unfold read_file at 1. rewrite Htext.
    rewrite M_bind_eq. unfold lift. rewrite Hempty by done.
    rewrite M_bind_eq.
    by destruct (organize_files _ _ _ _ _ _) as [[more|e] w1].
  - intros ls vars vars' opts Hread Hsize.
    destruct (read_calls_bound _ _ _ _ Hread Hsize) as (l0 & rest & -> & ->).
    by eauto.
  - intros hla_truth sample locus text vars.
    rewrite organize_file_spec. case_decide; [|done]. done.
Qed.

Lemma empty_genotype_file_witness :
  organize_file ∅ "s1" "C" "" unbound = Ok (unbound, []).
Proof.
  apply (proj1 empty_genotype_file). reflexivity.
Defined.

End FirstLine.

(** ** The report as a whole *)

Section Shape.

Import PyStr Bwakit Report.

Variable P : Platform.

(** [_organize_calls] commits the text of the rows of [report] and
    returns the path it was given. *)
Lemma organize_calls_inv out_file hla_base data w out w' :
  _organize_calls P out_file hla_base data w = (Ok out, w') →
  ∃ written,
    report P hla_base data w = (Ok written, w) ∧
    out = out_file ∧
    w' = MkWorld
           (tx_commit P out_file (String.concat "" (csv_writerow P <$> written)) (files w))
           (cmds w).
Proof.
  unfold _organize_calls. rewrite M_bind_eq.
  destruct (report P hla_base data w) as [[written|e] w1] eqn:Hreport; [|done].
  pose proof Hreport as (? & _ & -> & _)%report_inv.
  rewrite M_bind_eq. unfold commit. intros [= <- <-]. by exists written.
Qed.

(** C6: the text committed by [_organize_calls] is the text of a list of
    rows of which the first is the header, with its seven names in order,
    and each of the others has seven cells: the sample, locus,
    mismatches, options, alleles, expected and validates values of one
    data row, in this order. *)
Theorem report_shape out_file hla_base data w out w' :
  _organize_calls P out_file hla_base data w = (Ok out, w') →
  ∃ written rows,
    files w' =
      tx_commit P out_file (String.concat "" (csv_writerow P <$> written)) (files w) ∧
    written =
      ["sample"; "locus"; "mismatches"; "options"; "alleles"; "expected"; "validates"]
      :: (cells <$> rows) ∧
    Forall (λ row, length row = 7) written ∧
    ∀ i r, rows !! i = Some r →
      written !! S i =
      Some [r_sample r; r_locus r; r_mismatches r; pretty (r_options r);
            r_alleles r; r_expected r; r_validates r].
Proof.
  intros (written & Hreport & -> & ->)%organize_calls_inv.
  apply report_inv in Hreport as (hla_truth & _ & _ & _ & ->).
  set (rows := genotype_files P hla_base w ≫= _).
  exists (header :: (cells <$> rows)), rows.
  split; [done|]. split; [done|]. split.
  - constructor; [done|]. apply Forall_fmap, Forall_true. done.
  - intros i r Hr. change ((cells <$> rows) !! i = Some (cells r)).
    by rewrite list_lookup_fmap, Hr.
Qed.

(** C2, amended: a finished report has, in the order of the genotype
    files, one data row for each genotype file with at least one line and
    no other; the locus of the row is the base name of the file from
    which every occurrence of the base name of the alignment file
    followed by [.hla.HLA-], and then every occurrence of [.gt], has
    been taken out.  This is the text between that prefix and the suffix
    [.gt] when this text has no dot. *)
Theorem one_row_per_file hla_base data w written w' :
  report P hla_base data w = (Ok written, w') →
  ∃ rows,
    written = header :: (cells <$> rows) ∧
    Forall2
      (λ gf r,
         r_locus r =
           replace ".gt" ""
             (replace (align_base P data +:+ ".hla.HLA-") "" (OsPath.basename gf)) ∧
         ∀ locus,
           count_char "." locus = 0 →
           OsPath.basename gf = (align_base P data +:+ ".hla.HLA-") +:+ locus +:+ ".gt" →
           r_locus r = locus)
      (filter (λ gf, has_line (files w) gf = true) (genotype_files P hla_base w))
      rows.
Proof.
  intros (hla_truth & _ & _ & _ & ->)%report_inv.
  eexists. split; [done|].
  eapply Forall2_impl; [apply described_rows_filter|].
  intros gf r (text & l0 & rest & _ & _ & ->). cbn [described_row r_locus].
  split; [done|]. intros locus Hdots Hbase. by apply locus_of_plain.
Qed.

End Shape.

(** ** The truth set *)

Section TruthSet.

Import PyStr Bwakit Report.

Variable P : Platform.

Lemma truth_entry_update_in2 {A} (d : gmap string (gmap string A)) k1 k2 f s l :
  truth_entry s l (Toolz.update_in2 d k1 k2 f) =
  if decide (s = k1 ∧ l = k2) then Some (f (truth_entry k1 k2 d))
  else truth_entry s l d.
Proof.
  unfold truth_entry, Toolz.update_in2.
  destruct (decide (s = k1)) as [->|Hs].
  - rewrite lookup_insert_eq. simpl.
    destruct (decide (l = k2)) as [->|Hl].
    + rewrite lookup_insert_eq, decide_True by done.
      by destruct (d !! k1).
    + rewrite lookup_insert_ne, decide_False by naive_solver.
      by destruct (d !! k1).
  - rewrite lookup_insert_ne, decide_False by naive_solver. done.
Qed.

Lemma get_in2_entry {A} (d : gmap string (gmap string A)) s l dflt :
  Toolz.get_in2 s l d dflt = default dflt (truth_entry s l d).
Proof. unfold Toolz.get_in2, truth_entry. by destruct (d !! s). Qed.

(** The loop over the truth rows: each entry is that of the last row for
    its sample and locus, or the entry it had. *)
Lemma read_truth_spec rows : ∀ out,
  Forall truth_row rows →
  ∃ hla_truth,
    read_truth rows out = Ok hla_truth ∧
    ∀ s l, truth_entry s l hla_truth =
           match last_alleles s l rows with
           | Some alleles => Some (truth_alleles_of alleles)
           | None => truth_entry s l out
           end.
Proof.
  induction rows as [|row rows IH]; intros out Hrows.
  - exists out. done.
  - inversion Hrows as [|? ? Hrow Hrest]; subst.
    destruct Hrow as [->|Hlen].
    + destruct (IH out Hrest) as (hla_truth & Hread & Hentry).
      exists hla_truth. split; [done|]. intros s l. by rewrite Hentry.
    + destruct row as [|sample [|locus [|alleles [|x row]]]]; try done.
      destruct (IH (Toolz.update_in2 out sample locus (λ _, truth_alleles_of alleles)) Hrest)
        as (hla_truth & Hread & Hentry).
      exists hla_truth. split; [done|]. intros s l. rewrite Hentry.
      unfold last_alleles. cbn [omap list_omap row_for].
      rewrite truth_entry_update_in2.
      destruct (decide (sample = s ∧ locus = l)) as [[-> ->]|Hne].
      * rewrite decide_True by done. rewrite last_cons.
        by destruct (last (omap (row_for s l) rows)).
      * rewrite decide_False by naive_solver. done.
Qed.

(** C10: when the truth file exists, [get_hla_truthset] leaves out the
    first row and the empty rows, and the entry of a sample and locus is
    the alleles field of the last row for them, split at the semicolons
    with every part stripped. *)
Theorem truth_set_rows data w path text hd rows :
  Toolz.get_in ["config"; "algorithm"; "hlavalidate"] (PDict data) PNone = PStr path →
  path ≠ "" →
  file_exists P path (files w) = true →
  files w !! path = Some text →
  csv_reader P text = hd :: rows →
  Forall truth_row rows →
  ∃ hla_truth,
    get_hla_truthset P data w = (Ok hla_truth, w) ∧
    ∀ sample locus,
      hla_truth !! sample ≫= (λ loci, loci !! locus) =
      (λ alleles, strip <$> split ";" alleles) <$> last_alleles sample locus rows.
Proof.
  intros Hval Hpath Hexists Htext Hcsv Hrows.
  destruct (read_truth_spec rows ∅ Hrows) as (hla_truth & Hread & Hentry).
  exists hla_truth. split.
  - unfold get_hla_truthset. rewrite Hval. cbn [truthy].
    apply String.eqb_neq in Hpath. rewrite Hpath. cbn [negb].
    rewrite M_bind_eq. unfold gets. rewrite Hexists.
    rewrite M_bind_eq. unfold read_file. rewrite Htext, Hcsv.
    unfold lift. by rewrite Hread.
  - intros sample locus. specialize (Hentry sample locus).
    unfold truth_entry in Hentry. rewrite Hentry.
    destruct (last_alleles sample locus rows); [done|].
    by rewrite lookup_empty.
Qed.

(** C4: without a truth file, because the configuration has no entry for
    it or a false one or names a file that does not exist,
    [get_hla_truthset] returns the empty dictionary, and the rows of the
    report have nothing in their expected and validates columns. *)
Theorem no_truth_set data w :
  let val_csv :=
    Toolz.get_in ["config"; "algorithm"; "hlavalidate"] (PDict data) PNone in
  Toolz.getitems ["config"; "algorithm"; "hlavalidate"] (PDict data) = None ∨
  truthy val_csv = false ∨
  (∃ path, val_csv = PStr path ∧ file_exists P path (files w) = false) →
  get_hla_truthset P data w = (Ok ∅, w) ∧
  ∀ hla_base written w',
    report P hla_base data w = (Ok written, w') →
    ∃ rows,
      written = header :: (cells <$> rows) ∧
      ∀ r, r ∈ rows → r_expected r = "" ∧ r_validates r = "".
Proof.
  intros val_csv Hcase.
  assert (get_hla_truthset P data w = (Ok ∅, w)) as Hempty.
  { unfold get_hla_truthset. fold val_csv.
    destruct Hcase as [Habsent|[Hfalse|(path & Hpath & Hmissing)]].
    - unfold val_csv, Toolz.get_in. by rewrite Habsent.
    - by rewrite Hfalse.
    - rewrite Hpath. destruct (truthy (PStr path)); [|done].
      rewrite M_bind_eq. unfold gets. by rewrite Hmissing. }
  split; [done|].
  intros hla_base written w' (hla_truth & Htruth & -> & _ & ->)%report_inv.
  rewrite Hempty in Htruth. injection Htruth as <-.
  eexists. split; [done|].
  intros r (gf & text & l0 & rest & _ & _ & _ & ->)%described_rows_elem.
  unfold described_row. cbn [r_expected r_validates].
  rewrite get_in2_entry. unfold truth_entry. by rewrite lookup_empty.
Qed.

End TruthSet.

(** ** What the report leaves alone *)

Section ReadOnly.

Import PyStr Bwakit Report.

Variable P : Platform.

Implicit Types (w : World) (gfs : list string) (vars : Locals).

(** The loop over the genotype files only reads. *)
Lemma organize_files_world hla_truth align sample gfs : ∀ vars w,
  snd (organize_files hla_truth align sample gfs vars w) = w.
Proof.
  induction gfs as [|gf gfs IH]; intros vars w; [done|].
  cbn [organize_files]. rewrite M_bind_eq. unfold lift at 1.
  destruct (basename_of align) as [ab|e]; [|done].
  rewrite M_bind_eq. unfold read_file at 1.
  destruct (files w !! gf) as [text|]; [|done].
  rewrite M_bind_eq. unfold lift.
  destruct (organize_file _ _ _ _ _) as [[vars' rows]|e]; [|done].
  rewrite M_bind_eq. specialize (IH vars' w).
  by destruct (organize_files _ _ _ _ _ _) as [[more|e] w1]; simpl in IH; subst.
Qed.

Lemma report_world hla_base data w : snd (report P hla_base data w) = w.
Proof.
  unfold report. rewrite M_bind_eq.
  pose proof (get_hla_truthset_world P data w) as Hw.
  destruct (get_hla_truthset P data w) as [[hla_truth|e] w0]; simpl in Hw; subst w0;
    [|done].
  rewrite M_bind_eq. unfold gets at 1. rewrite M_bind_eq.
  pose proof (organize_files_world hla_truth (get_align_bam P data)
                (get_sample_name P data)
                (glob P (hla_base +:+ ".HLA-*.gt") (files w)) unbound w) as Hw.
  by destruct (organize_files _ _ _ _ _ _) as [[rows|e] w1]; simpl in Hw; subst.
Qed.

(** [_organize_calls] leaves the log of commands as it is. *)
Lemma organize_calls_cmds out_file hla_base data w r w' :
  _organize_calls P out_file hla_base data w = (r, w') → cmds w' = cmds w.
Proof.
  unfold _organize_calls. rewrite M_bind_eq.
  pose proof (report_world hla_base data w) as Hw.
  destruct (report P hla_base data w) as [[written|e] w1]; simpl in Hw; subst w1.
  - rewrite M_bind_eq. unfold commit. by intros [= <- <-].
  - by intros [= <- <-].
Qed.

End ReadOnly.

(** ** [run] *)

Section Run.

Import PyStr Bwakit Report.

Variable P : Platform.

(** C7: when no file matches [hla_base + ".*"], [run] returns [data] as it
    was given, without an [hla] key of its making, and the world is as it
    was: no command was launched and no file written. *)
Theorem run_without_files data w exe align_file :
  which P "run-bwamem" = Some exe →
  get_align_bam P data = Some align_file →
  glob P (hla_base_of P align_file +:+ ".*") (files w) = [] →
  run P data w = (Ok data, w) ∧
  cmds (snd (run P data w)) = cmds w ∧
  ∀ data', fst (run P data w) = Ok data' → data' !! "hla" = data !! "hla".
Proof.
  intros Hwhich Halign Hglob.
  assert (run P data w = (Ok data, w)) as Hrun.
  { unfold run. rewrite Hwhich, Halign. cbv zeta.
    rewrite M_bind_eq. unfold gets at 1. by rewrite Hglob. }
  rewrite Hrun. split; [done|]. split; [done|]. by intros data' [= <-].
Qed.

(** C5, amended: when some file matches [hla_base + ".*"] and
    [utils.file_exists] says yes to the report, [run] launches no command,
    changes no file and returns [data] with [hla] set to the dictionary
    that maps [calls] to the path of the report, the other keys being as
    they were.  When [utils.file_exists] says no, [run] launches
    [run-HLA], whatever comes after, and calls [_organize_calls]; it
    returns [data] so updated when neither raises, and raises what they
    raise otherwise. *)
Theorem run_with_files data w exe align_file :
  which P "run-bwamem" = Some exe →
  get_align_bam P data = Some align_file →
  let hla_base := hla_base_of P align_file in
  let out_file := hla_base +:+ ".top" in
  let cmd := run_hla_cmd (OsPath.dirname (realpath P exe)) hla_base in
  let data' := <["hla" := PDict {["calls" := PStr out_file]}]> data in
  glob P (hla_base +:+ ".*") (files w) ≠ [] →
  (file_exists P out_file (files w) = true → run P data w = (Ok data', w)) ∧
  (file_exists P out_file (files w) = false →
     run P data w =
     match do_run P cmd (files w) with
     | None => (Raise CalledProcessError, MkWorld (files w) (cmds w ++ [cmd]))
     | Some files1 =>
         match _organize_calls P out_file hla_base data
                 (MkWorld files1 (cmds w ++ [cmd])) with
         | (Ok _, w2) => (Ok data', w2)
         | (Raise e, w2) => (Raise e, w2)
         end
     end ∧
     cmds (snd (run P data w)) = cmds w ++ [cmd]) ∧
  (data' !! "hla" = Some (PDict {["calls" := PStr out_file]}) ∧
   ∀ k, k ≠ "hla" → data' !! k = data !! k).
Proof.
  intros Hwhich Halign hla_base out_file cmd data' Hglob.
  assert (Hfound : (0 <? length (glob P (hla_base +:+ ".*") (files w)))%nat = true).
  { apply Nat.ltb_lt. destruct (glob P _ _); [done|simpl; lia]. }
  split; [|split].
  - intros Hexists. unfold run. rewrite Hwhich, Halign. cbv zeta.
    rewrite M_bind_eq. unfold gets at 1. fold hla_base. rewrite Hfound.
    rewrite M_bind_eq. unfold gets at 1. fold out_file. by rewrite Hexists.
  - intros Hmissing.
    assert (run P data w =
            match do_run P cmd (files w) with
            | None => (Raise CalledProcessError, MkWorld (files w) (cmds w ++ [cmd]))
            | Some files1 =>
                match _organize_calls P out_file hla_base data
                        (MkWorld files1 (cmds w ++ [cmd])) with
                | (Ok _, w2) => (Ok data', w2)
                | (Raise e, w2) => (Raise e, w2)
                end
            end) as Hrun.
    { unfold run. rewrite Hwhich, Halign. cbv zeta.
      rewrite M_bind_eq. unfold gets at 1. fold hla_base. rewrite Hfound.
      rewrite M_bind_eq. unfold gets at 1. fold out_file. rewrite Hmissing.
      cbn [negb]. rewrite !M_bind_eq. unfold run_command. fold cmd.
      destruct (do_run P cmd (files w)) as [files1|]; [|done].
      destruct (_organize_calls P out_file hla_base data _) as [[out|e] w2] eqn:Horg;
        [|done].
      by apply organize_calls_inv in Horg as (_ & _ & -> & _). }
    split; [done|]. rewrite Hrun.
    destruct (do_run P cmd (files w)) as [files1|]; [|done].
    destruct (_organize_calls P out_file hla_base data _) as [r2 w2] eqn:Horg.
    apply organize_calls_cmds in Horg. by destruct r2.
  - unfold data'. split; [by rewrite lookup_insert_eq|].
    intros k Hk. by rewrite lookup_insert_ne.
Qed.

End Run.

(** ** The properties on the sample store *)

Section Examples.

Import PyStr Bwakit Report.


Lemma report_shape_witness :
  ∃ written rows,
    files (MkWorld
             (<[ "/work/align/hla/s1.bam.hla.top" :=
                   String.concat "" (csv_writerow Sim.idle <$>
                     [header;
                      ["s1"; "A"; "0"; "2"; "HLA-A*01:01:01:01;HLA-A*02:01:01";
                       "HLA-A*01:01;HLA-A*02:01:07"; "yes"];
                      ["s1"; "B"; "3"; "1"; "HLA-B*07:02:01;HLA-B*08:01:01";
                       "HLA-B*08:01;HLA-B*44:02"; "no"]]) ]> Sim.typed_files) []) =
      tx_commit Sim.idle "/work/align/hla/s1.bam.hla.top"
        (String.concat "" (csv_writerow Sim.idle <$> written)) (files Sim.typed) ∧
    written =
      ["sample"; "locus"; "mismatches"; "options"; "alleles"; "expected"; "validates"]
      :: (cells <$> rows) ∧
    Forall (λ row, length row = 7) written ∧
    ∀ i r, rows !! i = Some r →
      written !! S i =
      Some [r_sample r; r_locus r; r_mismatches r; pretty (r_options r);
            r_alleles r; r_expected r; r_validates r].
Proof.
  apply (report_shape Sim.idle "/work/align/hla/s1.bam.hla.top" Sim.hla_base
           Sim.with_truth Sim.typed "/work/align/hla/s1.bam.hla.top").
  vm_compute. reflexivity.
Defined.

Lemma one_row_per_file_witness :
  ∃ rows,
    [header;
     ["s1"; "A"; "0"; "2"; "HLA-A*01:01:01:01;HLA-A*02:01:01";
      "HLA-A*01:01;HLA-A*02:01:07"; "yes"];
     ["s1"; "B"; "3"; "1"; "HLA-B*07:02:01;HLA-B*08:01:01";
      "HLA-B*08:01;HLA-B*44:02"; "no"]] = header :: (cells <$> rows) ∧
    Forall2
      (λ gf r,
         r_locus r =
           replace ".gt" ""
             (replace (align_base Sim.idle Sim.with_truth +:+ ".hla.HLA-") ""
                (OsPath.basename gf)) ∧
         ∀ locus,
           count_char "." locus = 0 →
           OsPath.basename gf =
             (align_base Sim.idle Sim.with_truth +:+ ".hla.HLA-") +:+ locus +:+ ".gt" →
           r_locus r = locus)
      (filter (λ gf, has_line (files Sim.typed) gf = true)
         (genotype_files Sim.idle Sim.hla_base Sim.typed))
      rows.
Proof.
  apply (one_row_per_file Sim.idle Sim.hla_base Sim.with_truth Sim.typed _ Sim.typed).
  vm_compute. reflexivity.
Defined.

(** C2 as it is stated fails on a genotype file whose name ends in
    [.gt.gt]: the file matches the pattern and has lines, its row has the
    locus [A], and its base name without the prefix and the suffix is
    [A.gt]. *)
Lemma locus_counterexample :
  genotype_files Sim.idle Sim.hla_base Sim.doubled =
    ["/work/align/hla/s1.bam.hla.HLA-A.gt.gt"] ∧
  has_line (files Sim.doubled) "/work/align/hla/s1.bam.hla.HLA-A.gt.gt" = true ∧
  report Sim.idle Sim.hla_base Sim.without_truth Sim.doubled =
    (Ok [header;
         cells (MkRow "s1" "A" "0" 2 "HLA-A*01:01:01:01;HLA-A*02:01:01" "" "")],
     Sim.doubled) ∧
  remove_suffix ".gt"
    (remove_prefix (align_base Sim.idle Sim.without_truth +:+ ".hla.HLA-")
       (OsPath.basename "/work/align/hla/s1.bam.hla.HLA-A.gt.gt")) = "A.gt" ∧
  r_locus (MkRow "s1" "A" "0" 2 "HLA-A*01:01:01:01;HLA-A*02:01:01" "" "") ≠ "A.gt".
Proof.
  split; [by vm_compute|]. split; [by vm_compute|].
  split; [by vm_compute|]. split; [by vm_compute|]. discriminate.
Qed.

Lemma truth_set_rows_witness :
  ∃ hla_truth,
    get_hla_truthset Sim.idle Sim.with_truth Sim.typed = (Ok hla_truth, Sim.typed) ∧
    ∀ sample locus,
      hla_truth !! sample ≫= (λ loci, loci !! locus) =
      (λ alleles, strip <$> split ";" alleles) <$>
        last_alleles sample locus
          [["s1"; "A"; "HLA-A*01:01; HLA-A*02:01:07"]; [];
           ["s1"; "B"; "HLA-B*07:02"]; ["s1"; "B"; "HLA-B*08:01;HLA-B*44:02"]].
Proof.
  apply (truth_set_rows Sim.idle Sim.with_truth Sim.typed "/work/truth.csv"
           Sim.truth_csv ["sample"; "locus"; "alleles"]).
  - reflexivity.
  - discriminate.
  - reflexivity.
  - reflexivity.
  - vm_compute. reflexivity.
  - repeat constructor; (by left) || (by right).
Defined.

(** On the sample store the last of the two rows for locus B is the one
    kept. *)
Example truth_set_last_row :
  ∃ hla_truth,
    get_hla_truthset Sim.idle Sim.with_truth Sim.typed = (Ok hla_truth, Sim.typed) ∧
    hla_truth !! "s1" ≫= (λ loci, loci !! "B") = Some ["HLA-B*08:01"; "HLA-B*44:02"] ∧
    hla_truth !! "s1" ≫= (λ loci, loci !! "A") = Some ["HLA-A*01:01"; "HLA-A*02:01:07"].
Proof.
  eexists. split; [vm_compute; reflexivity|]. split; vm_compute; reflexivity.
Qed.

Lemma no_truth_set_witness :
  get_hla_truthset Sim.idle Sim.without_truth Sim.typed = (Ok ∅, Sim.typed) ∧
  ∀ hla_base written w',
    report Sim.idle hla_base Sim.without_truth Sim.typed = (Ok written, w') →
    ∃ rows,
      written = header :: (cells <$> rows) ∧
      ∀ r, r ∈ rows → r_expected r = "" ∧ r_validates r = "".
Proof.
  apply (no_truth_set Sim.idle Sim.without_truth Sim.typed).
  left. vm_compute. reflexivity.
Defined.

Lemma run_without_files_witness :
  run Sim.idle Sim.with_truth Sim.untyped = (Ok Sim.with_truth, Sim.untyped) ∧
  cmds (snd (run Sim.idle Sim.with_truth Sim.untyped)) = cmds Sim.untyped ∧
  ∀ data', fst (run Sim.idle Sim.with_truth Sim.untyped) = Ok data' →
           data' !! "hla" = Sim.with_truth !! "hla".
Proof.
  apply (run_without_files Sim.idle Sim.with_truth Sim.untyped
           "/usr/local/share/bwakit/run-bwamem" "/work/align/s1.bam").
  - reflexivity.
  - reflexivity.
  - vm_compute. reflexivity.
Defined.

Lemma run_with_files_witness :
  run Sim.idle Sim.with_truth Sim.reported =
    (Ok (<["hla" := PDict {["calls" := PStr "/work/align/hla/s1.bam.hla.top"]}]>
           Sim.with_truth),
     Sim.reported).
Proof.
  apply (run_with_files Sim.idle Sim.with_truth Sim.reported
           "/usr/local/share/bwakit/run-bwamem" "/work/align/s1.bam").
  - reflexivity.
  - reflexivity.
  - vm_compute. discriminate.
  - vm_compute. reflexivity.
Defined.

(** C5 as it is stated fails when the report does not exist and a
    genotype file has a line of fewer than four fields: a file matches
    [hla_base + ".*"], the command is launched, and [run] raises instead
    of returning [data]. *)
Lemma run_raises_counterexample :
  hla_base_of Sim.idle "/work/align/s1.bam" = Sim.hla_base ∧
  glob Sim.idle (Sim.hla_base +:+ ".*") (files Sim.broken) =
    ["/work/align/hla/s1.bam.hla.HLA-A.gt"] ∧
  file_exists Sim.idle (Sim.hla_base +:+ ".top") (files Sim.broken) = false ∧
  run Sim.idle Sim.without_truth Sim.broken =
    (Raise ValueError, MkWorld (files Sim.broken) [Sim.cmd]) ∧
  ¬ ∃ data' w', run Sim.idle Sim.without_truth Sim.broken = (Ok data', w').
Proof.
  assert (run Sim.idle Sim.without_truth Sim.broken =
          (Raise ValueError, MkWorld (files Sim.broken) [Sim.cmd])) as Hrun
    by (vm_compute; reflexivity).
  split; [by vm_compute|]. split; [by vm_compute|]. split; [by vm_compute|].
  split; [done|]. rewrite Hrun. by intros (? & ? & ?).
Qed.

End Examples.

(** * Further properties of the module *)

(** ** The shape of a protein name *)

Section ProteinShape.

Import PyStr Bwakit.

Lemma append_nil_r s : s +:+ "" = s.
Proof.
  induction s as [|c s IH]; [done|].
  change (String c s +:+ "") with (String c (s +:+ "")). by rewrite IH.
Qed.

Lemma append_assoc s t u : (s +:+ t) +:+ u = s +:+ t +:+ u.
Proof.
  induction s as [|c s IH]; [done|].
  change (String c ((s +:+ t) +:+ u) = String c (s +:+ t +:+ u)). by rewrite IH.
Qed.

(** The join of the first two fields starts the join of all of them. *)
Lemma join_take_two sep l :
  ∃ rest, join sep l = join sep (take 2 l) +:+ rest.
Proof.
  destruct l as [|a [|b [|c l]]].
  - by exists "".
  - exists "". symmetry. apply (append_nil_r (join sep [a])).
  - exists "". symmetry. apply (append_nil_r (join sep [a; b])).
  - exists (sep +:+ join sep (c :: l)).
    change (join sep (a :: b :: c :: l))
      with (a +:+ sep +:+ b +:+ sep +:+ join sep (c :: l)).
    change (join sep (take 2 (a :: b :: c :: l))) with (a +:+ sep +:+ b).
    by rewrite !append_assoc.
Qed.

(** X1: a protein name has at most one colon, and the allele name starts
    with it: [_hla_protein] only cuts a tail off. *)
Theorem hla_protein_shape name :
  count_char ":" (_hla_protein name) ≤ 1 ∧
  ∃ tail, name = _hla_protein name +:+ tail.
Proof.
  split.
  - pose proof (split_length ":" (_hla_protein name)) as Hlen.
    rewrite hla_protein_split, length_take in Hlen. lia.
  - destruct (join_take_two ":" (split ":" name)) as [tail Htail].
    exists tail. unfold _hla_protein. rewrite <- Htail. symmetry. apply join_split.
Qed.

(** X2: of a name made of a group, a protein and further fields, the
    group and the protein are kept and the rest is dropped. *)
Theorem hla_protein_fields group protein tail :
  count_char ":" group = 0 →
  count_char ":" protein = 0 →
  _hla_protein (group +:+ ":" +:+ protein +:+ ":" +:+ tail) = group +:+ ":" +:+ protein ∧
  _hla_protein (group +:+ ":" +:+ protein) = group +:+ ":" +:+ protein.
Proof.
  intros Hgroup Hprotein. unfold _hla_protein. split.
  - change (group +:+ ":" +:+ protein +:+ ":" +:+ tail)
      with (group +:+ String ":" (protein +:+ String ":" tail)).
    rewrite !split_app_sep by done.
    pose proof (split_not_nil ":" tail). by destruct (split ":" tail).
  - change (group +:+ ":" +:+ protein) with (group +:+ String ":" protein).
    rewrite split_app_sep, (split_no_sep ":" protein) by done. done.
Qed.

Lemma hla_protein_fields_witness :
  _hla_protein ("HLA-A*02" +:+ ":" +:+ "01" +:+ ":" +:+ "01:02L") =
    "HLA-A*02" +:+ ":" +:+ "01" ∧
  _hla_protein ("HLA-A*02" +:+ ":" +:+ "01") = "HLA-A*02" +:+ ":" +:+ "01".
Proof.
  apply (hla_protein_fields "HLA-A*02" "01" "01:02L"); reflexivity.
Defined.

End ProteinShape.

(** ** Lines that do not unpack, and the number of options *)

Section Lines.

Import PyStr Bwakit Report.

(** A record line is a line with at least three tabs. *)
Lemma record_line_tabs line : record_line line ↔ 3 ≤ count_char "009" line.
Proof. unfold record_line, fields. rewrite split_length. lia. Qed.



(** X3: the work on a genotype file raises [ValueError] exactly when one
    of its lines, the first or a later one, has fewer than three tabs;
    otherwise it ends normally with at most one row. *)
Theorem short_line_raises hla_truth sample locus text vars :
  (organize_file hla_truth sample locus text vars = Raise ValueError ↔
   ∃ line, line ∈ lines text ∧ count_char "009" line < 3) ∧
  ((∀ line, line ∈ lines text → 3 ≤ count_char "009" line) ↔
   ∃ vars' rows,
     organize_file hla_truth sample locus text vars = Ok (vars', rows) ∧
     length rows ≤ 1).
Proof.
  rewrite organize_file_spec.
  destruct (decide (Forall record_line (lines text))) as [Hall|Hsome].
  - assert (∀ line, line ∈ lines text → 3 ≤ count_char "009" line) as Htabs.
    { intros line Hin. apply record_line_tabs. by eapply Forall_forall in Hall. }
    split; split; try done.
    + intros (line & Hin & Hlt). specialize (Htabs line Hin). lia.
    + intros _. eexists _, _. split; [done|]. destruct (lines text); simpl; lia.
  - apply not_Forall_Exists in Hsome; [|apply _].
    apply Exists_exists in Hsome as (line & Hin & Hshort).
    assert (count_char "009" line < 3) as Hlt.
    { unfold compose in Hshort. rewrite record_line_tabs in Hshort. lia. }
    split; split; try done.
    + intros _. by exists line.
    + intros Htabs. specialize (Htabs line Hin). lia.
    + by intros (? & ? & ? & _).
Qed.

(** A blank line anywhere in a genotype file is such a line. *)
Example blank_line_raises :
  organize_file ∅ "s1" "A" (Sim.gt_A +:+ Sim.NL) unbound = Raise ValueError.
Proof. by vm_compute. Qed.



End Lines.

(** ** Validation looks at proteins only *)

Section ValidateProteins.

Import PyStr Bwakit Report.

Lemma hla_protein_twice name : _hla_protein (_hla_protein name) = _hla_protein name.
Proof.
  unfold _hla_protein at 1. rewrite hla_protein_split.
  by rewrite take_take, Nat.min_id.
Qed.

(** X5: the validation of a call depends on the called alleles through
    the set of their proteins only: calls with the same proteins, in any
    order and with any further fields, are validated alike, and so is the
    call cut down to its proteins. *)
Theorem validate_by_protein hla_truth sample locus calls :
  (∀ calls',
     (∀ p, p ∈ _hla_protein <$> calls ↔ p ∈ _hla_protein <$> calls') →
     validate hla_truth sample locus calls = validate hla_truth sample locus calls') ∧
  validate hla_truth sample locus (_hla_protein <$> calls) =
    validate hla_truth sample locus calls ∧
  validate hla_truth sample locus (reverse calls) =
    validate hla_truth sample locus calls.
Proof.
  assert (∀ calls1 calls2,
     (∀ p, p ∈ _hla_protein <$> calls1 ↔ p ∈ _hla_protein <$> calls2) →
     validate hla_truth sample locus calls1 = validate hla_truth sample locus calls2)
    as Hsame.
  { intros calls1 calls2 Hsame. unfold validate.
    destruct (Toolz.get_in2 sample locus hla_truth []) as [|t ts]; [done|].
    replace (list_to_set (_hla_protein <$> calls2) : gset string)
      with (list_to_set (_hla_protein <$> calls1) : gset string); [done|].
    apply set_eq. intros p. by rewrite !elem_of_list_to_set. }
  split; [by apply Hsame|]. split; apply Hsame; intros p.
  - replace (_hla_protein <$> (_hla_protein <$> calls))
      with (_hla_protein <$> calls); [done|].
    induction calls as [|name calls IH]; [done|].
    rewrite !fmap_cons, hla_protein_twice. by f_equal.
  - by rewrite fmap_reverse, elem_of_reverse.
Qed.

Lemma validate_by_protein_witness :
  validate {[ "s1" := {[ "A" := ["HLA-A*01:01"; "HLA-A*02:01"] ]} ]} "s1" "A"
    ["HLA-A*02:01:01:02L"; "HLA-A*01:01:01"] =
  validate {[ "s1" := {[ "A" := ["HLA-A*01:01"; "HLA-A*02:01"] ]} ]} "s1" "A"
    ["HLA-A*01:01:07"; "HLA-A*02:01"; "HLA-A*01:01"].
Proof.
  apply (proj1 (validate_by_protein _ "s1" "A" _)).
  intros p. vm_compute. split; intros H; set_solver.
Defined.

End ValidateProteins.

(** ** What a truth set holds *)

Section TruthSetShape.

Import PyStr Bwakit Report.

Implicit Types (s : string) (c : ascii).

Lemma lstrip_head s :
  match lstrip s with
  | EmptyString => True
  | String c _ => is_space c = false
  end.
Proof.
  induction s as [|c s IH]; simpl; [done|].
  by destruct (is_space c) eqn:Hc.
Qed.

Lemma rstrip_cons c s :
  rstrip (String c s) = EmptyString ∨ ∃ r, rstrip (String c s) = String c r.
Proof.
  simpl. destruct (rstrip s) as [|d r]; [destruct (is_space c)|].
  - by left.
  - right. by exists "".
  - right. by exists (String d r).
Qed.

Lemma rstrip_rstrip s : rstrip (rstrip s) = rstrip s.
Proof.
  induction s as [|c s IH]; [done|]. cbn [rstrip].
  destruct (rstrip s) as [|d r] eqn:Hr.
  - destruct (is_space c) eqn:Hc; [done|]. simpl. by rewrite Hc.
  - cbn [rstrip] in *. by rewrite IH.
Qed.

(** Stripping twice is stripping once. *)
Lemma strip_strip s : strip (strip s) = strip s.
Proof.
  unfold strip. pose proof (lstrip_head s) as Hhead.
  destruct (lstrip s) as [|c t] eqn:Hl; [done|].
  destruct (rstrip_cons c t) as [->|[r Hr]]; [done|].
  rewrite Hr. cbn [lstrip]. rewrite Hhead, <- Hr. apply rstrip_rstrip.
Qed.

Lemma lstrip_count c s : count_char c (lstrip s) ≤ count_char c s.
Proof.
  induction s as [|a s IH]; simpl; [done|].
  destruct (is_space a); simpl; lia.
Qed.

Lemma rstrip_count c s : count_char c (rstrip s) ≤ count_char c s.
Proof.
  induction s as [|a s IH]; simpl; [done|].
  destruct (rstrip s) as [|d r].
  - destruct (is_space a); simpl in *; lia.
  - simpl in *. lia.
Qed.

(** The alleles of a truth row: at least one, each stripped and without a
    semicolon. *)
Lemma truth_alleles_of_clean alleles :
  truth_alleles_of alleles ≠ [] ∧
  Forall (λ a, strip a = a ∧ count_char ";" a = 0) (truth_alleles_of alleles).
Proof.
  unfold truth_alleles_of. split.
  - pose proof (split_not_nil ";" alleles). by destruct (split ";" alleles).
  - apply Forall_fmap. eapply Forall_impl; [apply split_fields|].
    intros a Ha. simpl in *. split; [apply strip_strip|].
    unfold strip. pose proof (rstrip_count ";" (lstrip a)).
    pose proof (lstrip_count ";" a). lia.
Qed.

Lemma read_truth_clean (Q : list string → Prop) rows :
  (∀ alleles, Q (truth_alleles_of alleles)) →
  ∀ out hla_truth,
    read_truth rows out = Ok hla_truth →
    (∀ s l a, truth_entry s l out = Some a → Q a) →
    ∀ s l a, truth_entry s l hla_truth = Some a → Q a.
Proof.
  intros HQ. induction rows as [|row rows IH]; intros out hla_truth Hread Hout.
  - by injection Hread as <-.
  - destruct row as [|sample [|locus [|alleles [|x row]]]]; try done.
    + by apply (IH out).
    + apply (IH _ _ Hread). intros s l a.
      rewrite truth_entry_update_in2. case_decide; [|by apply Hout].
      by intros [= <-].
Qed.

(** The loop over the truth rows raises when a row does not unpack. *)
Lemma read_truth_raises rows : ∀ out,
  ¬ Forall truth_row rows → read_truth rows out = Raise ValueError.
Proof.
  induction rows as [|row rows IH]; intros out Hbad.
  - by destruct Hbad.
  - destruct row as [|sample [|locus [|alleles [|x row]]]]; try done.
    + apply IH. intros Hrows. apply Hbad. constructor; [by left|done].
    + apply IH. intros Hrows. apply Hbad. constructor; [by right|done].
Qed.

End TruthSetShape.

Section TruthSetUse.

Import PyStr Bwakit Report.

Variable P : Platform.

(** The entries of a truth set that was read. *)
Lemma get_hla_truthset_entries data w hla_truth w' :
  get_hla_truthset P data w = (Ok hla_truth, w') →
  ∀ sample locus alleles,
    truth_entry sample locus hla_truth = Some alleles →
    alleles ≠ [] ∧
    Forall (λ a, strip a = a ∧ count_char ";" a = 0) alleles.
Proof.
  intros Hget sample locus alleles Hentry.
  assert (∀ s l a, truth_entry s l (∅ : truthset) = Some a →
            a ≠ [] ∧ Forall (λ a, strip a = a ∧ count_char ";" a = 0) a) as Hempty.
  { intros s l a. unfold truth_entry. by rewrite lookup_empty. }
  unfold get_hla_truthset in Hget.
  destruct (truthy _); [|injection Hget as <- _; exact (Hempty _ _ _ Hentry)].
  destruct (Toolz.get_in _ _ _) as [| | |path| |]; try done.
  rewrite M_bind_eq in Hget. unfold gets in Hget.
  destruct (file_exists P path (files w));
    [|injection Hget as <- _; exact (Hempty _ _ _ Hentry)].
  rewrite M_bind_eq in Hget. unfold read_file in Hget.
  destruct (files w !! path) as [text|]; [|done].
  destruct (csv_reader P text) as [|hd rows]; [done|].
  unfold lift in Hget.
  destruct (read_truth rows ∅) as [truth|e] eqn:Hread; [|done].
  injection Hget as <- _.
  exact (read_truth_clean _ rows truth_alleles_of_clean ∅ truth Hread Hempty
           sample locus alleles Hentry).
Qed.


(** X6: whatever [get_hla_truthset] returns, each of its entries is a
    list of at least one allele, and every allele in it is without
    surrounding whitespace and without a semicolon. *)
Theorem truth_set_clean data w hla_truth w' :
  get_hla_truthset P data w = (Ok hla_truth, w') →
  ∀ sample locus alleles,
    hla_truth !! sample ≫= (λ loci, loci !! locus) = Some alleles →
    alleles ≠ [] ∧
    Forall (λ a, strip a = a ∧ count_char ";" a = 0) alleles.
Proof. apply get_hla_truthset_entries. Qed.

End TruthSetUse.

Section TruthSetUseExamples.

Import PyStr Bwakit Report.

Lemma truth_set_clean_witness :
  ["HLA-B*08:01"; "HLA-B*44:02"] ≠ [] ∧
  Forall (λ a, strip a = a ∧ count_char ";" a = 0) ["HLA-B*08:01"; "HLA-B*44:02"].
Proof.
  apply (truth_set_clean Sim.idle Sim.with_truth Sim.typed
           {[ "s1" := {[ "A" := ["HLA-A*01:01"; "HLA-A*02:01:07"];
                         "B" := ["HLA-B*08:01"; "HLA-B*44:02"] ]} ]}
           Sim.typed) with (sample := "s1") (locus := "B").
  - vm_compute. reflexivity.
  - vm_compute. reflexivity.
Defined.

End TruthSetUseExamples.

Section TruthFile.

Import PyStr Bwakit Report.

Variable P : Platform.

(** X7: with a truth file for which [utils.file_exists] says yes and
    which the reader reads as a first row followed by [rows],
    [get_hla_truthset] raises [ValueError] exactly when one of [rows] is
    neither empty nor of three fields, and returns a truth set exactly
    when each of them is empty or of three fields; the world is as it
    was in both cases. *)
Theorem truth_file_outcome data w path text hd rows :
  Toolz.get_in ["config"; "algorithm"; "hlavalidate"] (PDict data) PNone = PStr path →
  path ≠ "" →
  file_exists P path (files w) = true →
  files w !! path = Some text →
  csv_reader P text = hd :: rows →
  (get_hla_truthset P data w = (Raise ValueError, w) ↔
   ∃ row, row ∈ rows ∧ row ≠ [] ∧ length row ≠ 3) ∧
  ((∀ row, row ∈ rows → row = [] ∨ length row = 3) ↔
   ∃ hla_truth, get_hla_truthset P data w = (Ok hla_truth, w)).
Proof.
  intros Hval Hpath Hexists Htext Hcsv.
  assert (get_hla_truthset P data w = (read_truth rows ∅, w)) as Hget.
  { unfold get_hla_truthset. rewrite Hval. cbn [truthy].
    apply String.eqb_neq in Hpath. rewrite Hpath. cbn [negb].
    rewrite M_bind_eq. unfold gets. rewrite Hexists.
    rewrite M_bind_eq. unfold read_file. by rewrite Htext, Hcsv. }
  rewrite Hget. destruct (decide (Forall truth_row rows)) as [Hrows|Hrows].
  - destruct (read_truth_spec rows ∅ Hrows) as (hla_truth & -> & _).
    assert (∀ row, row ∈ rows → row = [] ∨ length row = 3) as Hall.
    { intros row Hin. by eapply Forall_forall in Hrows. }
    split; split; try done.
    + intros (row & Hin & Hne & Hlen). by destruct (Hall row Hin).
    + intros _. by exists hla_truth.
  - rewrite read_truth_raises by done.
    apply not_Forall_Exists in Hrows; [|intros row; unfold truth_row; apply _].
    apply Exists_exists in Hrows as (row & Hin & Hbad).
    unfold compose, truth_row in Hbad.
    split; split; try done.
    + intros _. exists row. split; [done|]. split; [naive_solver|naive_solver].
    + intros Hall. exfalso. apply Hbad. by apply Hall.
    + by intros (? & ?).
Qed.

(** X8: in a finished report a row has an empty validates column exactly
    when the truth set has no entry for its sample and locus, and then
    its expected column is empty too; with an entry, validates is yes or
    no and the expected column, split at the semicolons, is the entry. *)
Theorem expected_column hla_base data w written w' :
  report P hla_base data w = (Ok written, w') →
  ∃ hla_truth rows,
    get_hla_truthset P data w = (Ok hla_truth, w) ∧
    written = header :: (cells <$> rows) ∧
    ∀ r, r ∈ rows →
      let entry := hla_truth !! r_sample r ≫= (λ loci, loci !! r_locus r) in
      (r_validates r = "" ↔ entry = None) ∧
      (entry = None → r_expected r = "") ∧
      (∀ alleles, entry = Some alleles →
         (r_validates r = "yes" ∨ r_validates r = "no") ∧
         split ";" (r_expected r) = alleles).
Proof.
  intros (hla_truth & Htruth & -> & _ & ->)%report_inv.
  exists hla_truth. eexists. split; [done|]. split; [done|].
  intros r (gf & text & l0 & rest & _ & _ & _ & ->)%described_rows_elem.
  cbn [described_row r_sample r_locus r_validates r_expected].
  set (sample := get_sample_name P data).
  set (locus := locus_of (align_base P data) gf).
  rewrite get_in2_entry. fold (truth_entry sample locus hla_truth).
  destruct (truth_entry sample locus hla_truth) as [alleles|] eqn:Hentry; cbn.
  - destruct (get_hla_truthset_entries P _ _ _ _ Htruth sample locus alleles Hentry)
      as [Hne Hall].
    destruct alleles as [|a alleles]; [done|].
    split; [|split]; [| done |].
    + unfold validation. case_decide; split; done.
    + intros ? [= <-]. split.
      * unfold validation. case_decide; auto.
      * apply split_join; [done|].
        eapply Forall_impl; [apply Hall|]. by intros ? [_ ?].
  - split; [done|]. split; [done|]. done.
Qed.

End TruthFile.

Section TruthFileExamples.

Import PyStr Bwakit Report.

Lemma truth_file_outcome_witness :
  (get_hla_truthset Sim.idle Sim.with_truth
     (MkWorld {[ "/work/truth.csv" :=
                   "sample,locus,alleles" +:+ Sim.NL +:+ "s1,A" +:+ Sim.NL ]} []) =
   (Raise ValueError,
    MkWorld {[ "/work/truth.csv" :=
                 "sample,locus,alleles" +:+ Sim.NL +:+ "s1,A" +:+ Sim.NL ]} []) ↔
   ∃ row, row ∈ [["s1"; "A"]] ∧ row ≠ [] ∧ length row ≠ 3) ∧
  ((∀ row, row ∈ [["s1"; "A"]] → row = [] ∨ length row = 3) ↔
   ∃ hla_truth,
     get_hla_truthset Sim.idle Sim.with_truth
       (MkWorld {[ "/work/truth.csv" :=
                     "sample,locus,alleles" +:+ Sim.NL +:+ "s1,A" +:+ Sim.NL ]} []) =
     (Ok hla_truth,
      MkWorld {[ "/work/truth.csv" :=
                   "sample,locus,alleles" +:+ Sim.NL +:+ "s1,A" +:+ Sim.NL ]} [])).
Proof.
  apply (truth_file_outcome Sim.idle Sim.with_truth _ "/work/truth.csv"
           ("sample,locus,alleles" +:+ Sim.NL +:+ "s1,A" +:+ Sim.NL)
           ["sample"; "locus"; "alleles"] [["s1"; "A"]]).
  - reflexivity.
  - discriminate.
  - reflexivity.
  - reflexivity.
  - vm_compute. reflexivity.
Defined.

(** A truth file whose second row has two fields. *)
Example truth_row_of_two_fields :
  let w := MkWorld {[ "/work/truth.csv" :=
                        "sample,locus,alleles" +:+ Sim.NL +:+ "s1,A" +:+ Sim.NL ]} [] in
  get_hla_truthset Sim.idle Sim.with_truth w = (Raise ValueError, w).
Proof. by vm_compute. Qed.

Lemma expected_column_witness :
  ∃ hla_truth rows,
    get_hla_truthset Sim.idle Sim.with_truth Sim.typed = (Ok hla_truth, Sim.typed) ∧
    [header;
     ["s1"; "A"; "0"; "2"; "HLA-A*01:01:01:01;HLA-A*02:01:01";
      "HLA-A*01:01;HLA-A*02:01:07"; "yes"];
     ["s1"; "B"; "3"; "1"; "HLA-B*07:02:01;HLA-B*08:01:01";
      "HLA-B*08:01;HLA-B*44:02"; "no"]] = header :: (cells <$> rows) ∧
    ∀ r, r ∈ rows →
      let entry := hla_truth !! r_sample r ≫= (λ loci, loci !! r_locus r) in
      (r_validates r = "" ↔ entry = None) ∧
      (entry = None → r_expected r = "") ∧
      (∀ alleles, entry = Some alleles →
         (r_validates r = "yes" ∨ r_validates r = "no") ∧
         split ";" (r_expected r) = alleles).
Proof.
  apply (expected_column Sim.idle Sim.hla_base Sim.with_truth Sim.typed _ Sim.typed).
  vm_compute. reflexivity.
Defined.

End TruthFileExamples.

(** ** What [_organize_calls] changes, and when it completes *)

Section OrganizeEffects.

Import PyStr Bwakit Report.

Variable P : Platform.

Implicit Types (w : World) (gfs : list string) (vars : Locals).

(** With every genotype file in the store, the first file with a line
    that does not unpack stops the loop with [ValueError]. *)
Lemma organize_files_raises hla_truth a sample gfs : ∀ vars w,
  Forall (λ gf, is_Some (files w !! gf)) gfs →
  ¬ Forall (readable (files w)) gfs →
  organize_files hla_truth (Some a) sample gfs vars w = (Raise ValueError, w).
Proof.
  induction gfs as [|gf gfs IH]; intros vars w Hstore Hbad.
  - by destruct Hbad.
  - inversion Hstore as [|? ? [text Htext] Hrest]; subst.
    cbn [organize_files]. rewrite M_bind_eq. unfold lift at 1. cbn [basename_of].
    rewrite M_bind_eq. unfold read_file at 1. rewrite Htext.
    rewrite M_bind_eq. unfold lift. rewrite organize_file_spec.
    destruct (decide (Forall record_line (lines text))) as [Hls|Hls]; [|done].
    rewrite M_bind_eq, IH; [done|done|].
    intros Hall. apply Hbad. constructor; [by exists text|done].
Qed.

(** X9: [_organize_calls] launches no command; when it raises it leaves
    every file as it was, so that no part of a report is left behind,
    and when it returns it returns the path it was given, the one change
    being the report put in place by the transaction. *)
Theorem organize_calls_effects out_file hla_base data w r w' :
  _organize_calls P out_file hla_base data w = (r, w') →
  cmds w' = cmds w ∧
  match r with
  | Ok out =>
      out = out_file ∧
      ∃ written,
        report P hla_base data w = (Ok written, w) ∧
        files w' =
          tx_commit P out_file (String.concat "" (csv_writerow P <$> written)) (files w)
  | Raise e => w' = w ∧ report P hla_base data w = (Raise e, w)
  end.
Proof.
  destruct r as [out|e].
  - intros (written & Hreport & -> & ->)%organize_calls_inv.
    split; [done|]. split; [done|]. by exists written.
  - unfold _organize_calls. rewrite M_bind_eq.
    pose proof (report_world P hla_base data w) as Hw.
    destruct (report P hla_base data w) as [[written|e'] w1]; simpl in Hw; subst w1.
    + by rewrite M_bind_eq.
    + by intros [= <- <-].
Qed.

(** X10: with the truth set read, an alignment file that has a name and
    every genotype file in the store, [_organize_calls] completes when
    each line of each genotype file has at least three tabs, and raises
    [ValueError], changing nothing, when one line has fewer. *)
Theorem organize_calls_completes out_file hla_base data w hla_truth a :
  get_hla_truthset P data w = (Ok hla_truth, w) →
  get_align_bam P data = Some a →
  (∀ gf, gf ∈ genotype_files P hla_base w → is_Some (files w !! gf)) →
  ((∀ gf text line,
      gf ∈ genotype_files P hla_base w → files w !! gf = Some text →
      line ∈ lines text → 3 ≤ count_char "009" line) →
   ∃ w', _organize_calls P out_file hla_base data w = (Ok out_file, w')) ∧
  ((∃ gf text line,
      gf ∈ genotype_files P hla_base w ∧ files w !! gf = Some text ∧
      line ∈ lines text ∧ count_char "009" line < 3) →
   _organize_calls P out_file hla_base data w = (Raise ValueError, w)).
Proof.
  intros Htruth Ha Hstore. split.
  - intros Htabs.
    assert (Forall (readable (files w)) (genotype_files P hla_base w)) as Hall.
    { apply Forall_forall. intros gf Hgf.
      destruct (Hstore gf Hgf) as [text Htext]. exists text. split; [done|].
      apply Forall_forall. intros line Hline.
      apply record_line_tabs. by eapply Htabs. }
    unfold _organize_calls.
    rewrite M_bind_eq, (report_ok P hla_base data w hla_truth a) by done.
    rewrite M_bind_eq. unfold commit. by eexists.
  - intros (gf & text & line & Hgf & Htext & Hline & Hshort).
    unfold _organize_calls, report.
    rewrite !M_bind_eq, Htruth, M_bind_eq. unfold gets at 1.
    rewrite M_bind_eq, Ha.
    rewrite organize_files_raises; [done| |].
    + apply Forall_forall. intros gf' Hgf'. by apply Hstore.
    + intros Hall. eapply Forall_forall in Hall as (text' & Htext' & Hlines); [|exact Hgf].
      rewrite Htext in Htext'. injection Htext' as <-.
      eapply Forall_forall in Hlines; [|exact Hline].
      apply record_line_tabs in Hlines. lia.
Qed.

End OrganizeEffects.

(** ** The commands of [run], and running again *)

Section RunEffects.

Import PyStr Bwakit Report.

Variable P : Platform.

(** [run] in one piece: what it does once the executable and the
    alignment file are known. *)
Lemma run_unfold data w exe a :
  which P "run-bwamem" = Some exe →
  get_align_bam P data = Some a →
  let hla_base := hla_base_of P a in
  let out_file := hla_base +:+ ".top" in
  let cmd := run_hla_cmd (OsPath.dirname (realpath P exe)) hla_base in
  let data' := <["hla" := PDict {["calls" := PStr out_file]}]> data in
  run P data w =
  match glob P (hla_base +:+ ".*") (files w) with
  | [] => (Ok data, w)
  | _ :: _ =>
      if file_exists P out_file (files w) then (Ok data', w)
      else match do_run P cmd (files w) with
           | None => (Raise CalledProcessError, MkWorld (files w) (cmds w ++ [cmd]))
           | Some files1 =>
               match _organize_calls P out_file hla_base data
                       (MkWorld files1 (cmds w ++ [cmd])) with
               | (Ok _, w2) => (Ok data', w2)
               | (Raise e, w2) => (Raise e, w2)
               end
           end
  end.
Proof.
  intros Hwhich Halign hla_base out_file cmd data'.
  unfold run. rewrite Hwhich, Halign. cbv zeta.
  rewrite M_bind_eq. unfold gets at 1. fold hla_base.
  destruct (glob P (hla_base +:+ ".*") (files w)) as [|f found]; [done|].
  cbn [length Nat.ltb Nat.leb]. rewrite M_bind_eq. unfold gets at 1. fold out_file.
  destruct (file_exists P out_file (files w)); [done|].
  cbn [negb]. rewrite !M_bind_eq. unfold run_command. fold cmd.
  destruct (do_run P cmd (files w)) as [files1|]; [|done].
  destruct (_organize_calls P out_file hla_base data _) as [[out|e] w2] eqn:Horg;
    [|done].
  by apply organize_calls_inv in Horg as (_ & _ & -> & _).
Qed.

(** X11: whether [run] returns or raises, it launches at most one
    command.  It launches one exactly when [run-bwamem] is found, the
    alignment file has a name, some file matches [hla_base + ".*"] and
    [utils.file_exists] says no to the report [hla_base + ".top"]; the
    command is then [run-HLA] of the directory of [run-bwamem] on
    [hla_base]. *)
Theorem run_commands data w r w' :
  run P data w = (r, w') →
  (cmds w' = cmds w ∧
   (which P "run-bwamem" = None ∨
    get_align_bam P data = None ∨
    ∃ exe a,
      which P "run-bwamem" = Some exe ∧
      get_align_bam P data = Some a ∧
      (glob P (hla_base_of P a +:+ ".*") (files w) = [] ∨
       file_exists P (hla_base_of P a +:+ ".top") (files w) = true))) ∨
  (∃ exe a,
     which P "run-bwamem" = Some exe ∧
     get_align_bam P data = Some a ∧
     cmds w' =
       cmds w ++ [OsPath.dirname (realpath P exe) +:+ "/run-HLA " +:+ hla_base_of P a] ∧
     glob P (hla_base_of P a +:+ ".*") (files w) ≠ [] ∧
     file_exists P (hla_base_of P a +:+ ".top") (files w) = false).
Proof.
  destruct (which P "run-bwamem") as [exe|] eqn:Hwhich;
    [|unfold run; rewrite Hwhich; intros [= <- <-]; left; by auto].
  destruct (get_align_bam P data) as [a|] eqn:Halign;
    [|unfold run; rewrite Hwhich, Halign; intros [= <- <-]; left; by auto].
  rewrite (run_unfold data w exe a Hwhich Halign).
  destruct (glob P _ (files w)) as [|f found] eqn:Hglob.
  { intros [= <- <-]. left. split; [done|]. right. right. exists exe, a. by auto. }
  destruct (file_exists P _ (files w)) eqn:Hexists.
  { intros [= <- <-]. left. split; [done|]. right. right. exists exe, a. by auto. }
  intros Hrun. right. exists exe, a. repeat (split; [done|]).
  split; [|by rewrite Hglob].
  fold (run_hla_cmd (OsPath.dirname (realpath P exe)) (hla_base_of P a)).
  destruct (do_run P _ (files w)) as [files1|]; [|by injection Hrun as <- <-].
  destruct (_organize_calls P _ _ data _) as [r2 w2] eqn:Horg.
  apply organize_calls_cmds in Horg as Hcmds. simpl in Hcmds.
  by destruct r2; injection Hrun as <- <-.
Qed.

(** X12: running again after [run] returned, when the report then exists
    and the alignment file of the returned [data] is the same, launches
    nothing, changes nothing and returns the same [data]. *)
Theorem run_again data w data' w' exe a :
  which P "run-bwamem" = Some exe →
  get_align_bam P data = Some a →
  run P data w = (Ok data', w') →
  get_align_bam P data' = Some a →
  glob P (hla_base_of P a +:+ ".*") (files w') ≠ [] →
  file_exists P (hla_base_of P a +:+ ".top") (files w') = true →
  run P data' w' = (Ok data', w').
Proof.
  intros Hwhich Halign Hrun Halign' Hglob' Hexists'.
  rewrite (run_unfold data' w' exe a Hwhich Halign').
  rewrite (run_unfold data w exe a Hwhich Halign) in Hrun.
  assert (data' =
          <["hla" := PDict {["calls" := PStr (hla_base_of P a +:+ ".top")]}]> data)
    as ->.
  { destruct (glob P _ (files w)) as [|f found] eqn:Hglob.
    - injection Hrun as _ <-. by rewrite Hglob in Hglob'.
    - destruct (file_exists P _ (files w)); [by injection Hrun as <- _|].
      destruct (do_run P _ (files w)); [|done].
      destruct (_organize_calls P _ _ data _) as [[?|?] ?]; [|done].
      by injection Hrun as <- _. }
  destruct (glob P _ (files w')) as [|f found]; [done|].
  by rewrite Hexists', insert_insert_eq.
Qed.

End RunEffects.

(** ** The files [run] asks for are the files [_organize_calls] names *)

Section ToolFiles.

Import PyStr Bwakit Report.

Implicit Types (p h t : string).

Lemma rsplit_slash_cons c p :
  OsPath.rsplit_slash (String c p) =
  let '(h, t) := OsPath.rsplit_slash p in
  if Ascii.eqb c "/" then (String c h, t)
  else match h with
       | EmptyString => (EmptyString, String c t)
       | _ => (String c h, t)
       end.
Proof. reflexivity. Qed.

(** A text without a slash is its own base name. *)
Lemma rsplit_slash_plain t :
  count_char "/" t = 0 → OsPath.rsplit_slash t = (EmptyString, t).
Proof.
  induction t as [|c t IH]; [done|]. cbn [count_char OsPath.rsplit_slash].
  destruct (Ascii.eqb c "/"); [done|]. intros Ht. by rewrite IH.
Qed.

(** Text without a slash put after a path goes to its base name. *)
Lemma rsplit_slash_app h t :
  count_char "/" t = 0 →
  OsPath.rsplit_slash (h +:+ t) =
  (fst (OsPath.rsplit_slash h), snd (OsPath.rsplit_slash h) +:+ t).
Proof.
  intros Ht. induction h as [|c h IH]; [by rewrite rsplit_slash_plain|].
  change (String c h +:+ t) with (String c (h +:+ t)).
  cbn [OsPath.rsplit_slash]. rewrite IH.
  destruct (OsPath.rsplit_slash h) as [hh tt]. cbn [fst snd].
  destruct (Ascii.eqb c "/"); [done|]. by destruct hh.
Qed.

(** A path that ends with a slash has an empty base name. *)
Lemma rsplit_slash_dir p :
  OsPath.endswith_slash p = true → OsPath.rsplit_slash p = (p, EmptyString).
Proof.
  induction p as [|c p IH]; [done|]. destruct p as [|d p].
  - cbn. by intros ->.
  - intros Hend. rewrite rsplit_slash_cons, IH by done.
    by destruct (Ascii.eqb c "/").
Qed.

Lemma basename_no_slash p : count_char "/" (OsPath.basename p) = 0.
Proof.
  unfold OsPath.basename. induction p as [|c p IH]; [done|].
  cbn [OsPath.rsplit_slash]. destruct (OsPath.rsplit_slash p) as [hh tt].
  cbn [snd] in IH. destruct (Ascii.eqb c "/") eqn:Hc; [done|].
  destruct hh; [|done]. cbn. by rewrite Hc.
Qed.

(** The base name of a joined path is the part joined, when this part
    has no slash. *)
Lemma basename_join d t :
  count_char "/" t = 0 → OsPath.basename (OsPath.join d t) = t.
Proof.
  intros Ht. unfold OsPath.join, OsPath.basename.
  assert (OsPath.startswith_slash t = false) as ->.
  { destruct t as [|c t]; [done|]. cbn in *. by destruct (Ascii.eqb c "/"). }
  destruct (String.eqb_spec d "") as [->|Hd]; cbn [orb].
  { by rewrite rsplit_slash_plain. }
  destruct (OsPath.endswith_slash d) eqn:Hend.
  - by rewrite rsplit_slash_app, rsplit_slash_dir.
  - change (d +:+ "/" +:+ t) with (d +:+ String "/" t).
    replace (d +:+ String "/" t) with ((d +:+ "/") +:+ t)
      by (by rewrite append_assoc).
    rewrite rsplit_slash_app by done.
    rewrite rsplit_slash_dir; [done|].
    clear. induction d as [|c d IH]; [done|].
    change (String c d +:+ "/") with (String c (d +:+ "/")).
    cbn [OsPath.endswith_slash]. rewrite IH. by destruct d.
Qed.

(** X13: for a genotype file named as [run] names the files of the
    typing, [hla_base] followed by [.HLA-], a locus and [.gt], the locus
    column is this locus, whatever the directory, provided the locus has
    neither a dot nor a slash. *)
Theorem locus_of_tool_file P align_file locus :
  count_char "." locus = 0 →
  count_char "/" locus = 0 →
  locus_of (OsPath.basename align_file)
    (hla_base_of P align_file +:+ ".HLA-" +:+ locus +:+ ".gt") = locus.
Proof.
  intros Hdot Hslash. apply locus_of_plain; [done|].
  unfold hla_base_of, OsPath.basename at 1.
  rewrite rsplit_slash_app.
  2:{ change (".HLA-" +:+ locus +:+ ".gt") with (".HLA-" +:+ (locus +:+ ".gt")).
      rewrite !count_char_app, Hslash. done. }
  cbn [snd]. fold (OsPath.basename (OsPath.join
    (safe_makedir P (OsPath.join (OsPath.dirname align_file) "hla"))
    (OsPath.basename align_file +:+ ".hla"))).
  rewrite basename_join.
  2:{ rewrite count_char_app, basename_no_slash. done. }
  rewrite !append_assoc. done.
Qed.

Lemma locus_of_tool_file_witness :
  locus_of (OsPath.basename "/work/align/s1.bam")
    (hla_base_of Sim.idle "/work/align/s1.bam" +:+ ".HLA-" +:+ "DRB1" +:+ ".gt") = "DRB1".
Proof.
  apply (locus_of_tool_file Sim.idle "/work/align/s1.bam" "DRB1"); reflexivity.
Defined.

End ToolFiles.

(** ** These properties on the sample store *)

Section EffectsExamples.

Import PyStr Bwakit Report.

Lemma organize_calls_effects_witness :
  cmds Sim.broken = cmds Sim.broken ∧
  Sim.broken = Sim.broken ∧
  report Sim.idle Sim.hla_base Sim.without_truth Sim.broken =
    (Raise ValueError, Sim.broken).
Proof.
  apply (organize_calls_effects Sim.idle "/work/align/hla/s1.bam.hla.top"
           Sim.hla_base Sim.without_truth Sim.broken (Raise ValueError) Sim.broken).
  vm_compute. reflexivity.
Defined.

Lemma organize_calls_completes_witness :
  ((∀ gf text line,
      gf ∈ genotype_files Sim.idle Sim.hla_base Sim.typed →
      files Sim.typed !! gf = Some text →
      line ∈ lines text → 3 ≤ count_char "009" line) →
   ∃ w', _organize_calls Sim.idle "/work/align/hla/s1.bam.hla.top" Sim.hla_base
           Sim.with_truth Sim.typed = (Ok "/work/align/hla/s1.bam.hla.top", w')) ∧
  ((∃ gf text line,
      gf ∈ genotype_files Sim.idle Sim.hla_base Sim.typed ∧
      files Sim.typed !! gf = Some text ∧
      line ∈ lines text ∧ count_char "009" line < 3) →
   _organize_calls Sim.idle "/work/align/hla/s1.bam.hla.top" Sim.hla_base
     Sim.with_truth Sim.typed = (Raise ValueError, Sim.typed)).
Proof.
  apply (organize_calls_completes Sim.idle "/work/align/hla/s1.bam.hla.top"
           Sim.hla_base Sim.with_truth Sim.typed
           {[ "s1" := {[ "A" := ["HLA-A*01:01"; "HLA-A*02:01:07"];
                         "B" := ["HLA-B*08:01"; "HLA-B*44:02"] ]} ]}
           "/work/align/s1.bam").
  - vm_compute. reflexivity.
  - reflexivity.
  - apply Forall_forall.
    replace (genotype_files Sim.idle Sim.hla_base Sim.typed)
      with ["/work/align/hla/s1.bam.hla.HLA-C.gt";
            "/work/align/hla/s1.bam.hla.HLA-A.gt";
            "/work/align/hla/s1.bam.hla.HLA-B.gt"] by (by vm_compute).
    repeat constructor; eexists; vm_compute; reflexivity.
Defined.

Lemma run_commands_witness :
  (cmds (snd (run Sim.idle Sim.with_truth Sim.typed)) = cmds Sim.typed ∧
   (which Sim.idle "run-bwamem" = None ∨
    get_align_bam Sim.idle Sim.with_truth = None ∨
    ∃ exe a,
      which Sim.idle "run-bwamem" = Some exe ∧
      get_align_bam Sim.idle Sim.with_truth = Some a ∧
      (glob Sim.idle (hla_base_of Sim.idle a +:+ ".*") (files Sim.typed) = [] ∨
       file_exists Sim.idle (hla_base_of Sim.idle a +:+ ".top") (files Sim.typed) = true))) ∨
  (∃ exe a,
     which Sim.idle "run-bwamem" = Some exe ∧
     get_align_bam Sim.idle Sim.with_truth = Some a ∧
     cmds (snd (run Sim.idle Sim.with_truth Sim.typed)) =
       cmds Sim.typed ++
       [OsPath.dirname (realpath Sim.idle exe) +:+ "/run-HLA " +:+ hla_base_of Sim.idle a] ∧
     glob Sim.idle (hla_base_of Sim.idle a +:+ ".*") (files Sim.typed) ≠ [] ∧
     file_exists Sim.idle (hla_base_of Sim.idle a +:+ ".top") (files Sim.typed) = false).
Proof.
  apply (run_commands Sim.idle Sim.with_truth Sim.typed
           (fst (run Sim.idle Sim.with_truth Sim.typed))).
  by destruct (run Sim.idle Sim.with_truth Sim.typed).
Defined.

(** The typing of the sample store launches the command once. *)
Example run_launches_once :
  cmds (snd (run Sim.idle Sim.with_truth Sim.typed)) = [Sim.cmd].
Proof. by vm_compute. Qed.

(** A report that is there but empty does not count as one on the sample
    platform, whose [file_exists] asks for a file that is not empty: the
    command is launched and the report written anew. *)
Example run_rewrites_empty_report :
  let w := MkWorld (<[ "/work/align/hla/s1.bam.hla.top" := "" ]> Sim.typed_files) [] in
  files w !! "/work/align/hla/s1.bam.hla.top" = Some "" ∧
  file_exists Sim.idle "/work/align/hla/s1.bam.hla.top" (files w) = false ∧
  cmds (snd (run Sim.idle Sim.with_truth w)) = [Sim.cmd] ∧
  files (snd (run Sim.idle Sim.with_truth w)) !! "/work/align/hla/s1.bam.hla.top" =
    files (snd (run Sim.idle Sim.with_truth Sim.typed)) !! "/work/align/hla/s1.bam.hla.top" ∧
  files (snd (run Sim.idle Sim.with_truth w)) !! "/work/align/hla/s1.bam.hla.top" ≠ Some "".
Proof.
  cbv zeta. split; [by vm_compute|]. split; [by vm_compute|].
  split; [by vm_compute|]. split; [by vm_compute|]. by vm_compute.
Qed.

Lemma run_again_witness :
  run Sim.idle
    (<["hla" := PDict {["calls" := PStr "/work/align/hla/s1.bam.hla.top"]}]>
       Sim.with_truth)
    (snd (run Sim.idle Sim.with_truth Sim.typed)) =
  (Ok (<["hla" := PDict {["calls" := PStr "/work/align/hla/s1.bam.hla.top"]}]>
         Sim.with_truth),
   snd (run Sim.idle Sim.with_truth Sim.typed)).
Proof.
  apply (run_again Sim.idle Sim.with_truth Sim.typed _ _
           "/usr/local/share/bwakit/run-bwamem" "/work/align/s1.bam").
  - reflexivity.
  - reflexivity.
  - vm_compute. reflexivity.
  - vm_compute. reflexivity.
  - vm_compute. discriminate.
  - vm_compute. reflexivity.
Defined.

End EffectsExamples.

(** ** The lines of a file, and the variables kept between files *)

Section LinesAndLocals.

Import PyStr Bwakit Report.

Lemma lines_cons c s :
  lines (String c s) =
  if Ascii.eqb c "010" then String c EmptyString :: lines s
  else match lines s with
       | [] => [String c EmptyString]
       | l :: ls => String c l :: ls
       end.
Proof. reflexivity. Qed.

Lemma concat_cons_empty l ls :
  String.concat "" (l :: ls) = l +:+ String.concat "" ls.
Proof. destruct ls; [symmetry; apply append_nil_r|done]. Qed.

(** X14: iterating over a file loses nothing and cuts after each newline:
    the lines put end to end are the text, no line is empty, a line has
    at most one newline, and only an empty text has no line. *)
Theorem lines_concat text :
  String.concat "" (lines text) = text ∧
  Forall (λ line, line ≠ "" ∧ count_char "010" line ≤ 1) (lines text) ∧
  (lines text = [] ↔ text = "").
Proof.
  induction text as [|c text (Hcat & Hall & Hnil)]; [by repeat split|].
  rewrite lines_cons. destruct (Ascii.eqb c "010") eqn:Hc.
  - split; [|split; [|done]].
    + rewrite concat_cons_empty, Hcat. done.
    + constructor; [|done]. split; [done|]. simpl. rewrite Hc. lia.
  - destruct (lines text) as [|l ls] eqn:Hlines.
    + assert (text = "") as -> by (by apply Hnil). repeat split; try done.
      constructor; [|done]. split; [done|]. simpl. rewrite Hc. lia.
    + split; [|split; [|done]].
      * rewrite concat_cons_empty in *. by rewrite <- Hcat.
      * inversion Hall as [|? ? [Hl Hcount] Hls]; subst.
        constructor; [|done]. split; [done|]. simpl. rewrite Hc. lia.
Qed.

(** X15: the values [call_alleles] and [mismatches] have when the loop
    over the genotype files starts, or keep from an earlier file, never
    show in the result: the rows written, or the exception raised, are
    the same for any two values. *)
Theorem locals_do_not_leak hla_truth align sample gfs : ∀ vars1 vars2 w,
  fst (organize_files hla_truth align sample gfs vars1 w) =
  fst (organize_files hla_truth align sample gfs vars2 w).
Proof.
  induction gfs as [|gf gfs IH]; intros vars1 vars2 w; [done|].
  cbn [organize_files]. rewrite !M_bind_eq. unfold lift, read_file.
  destruct (basename_of align) as [ab|e]; [|done].
  rewrite !M_bind_eq.
  destruct (files w !! gf) as [text|]; [|done].
  rewrite !M_bind_eq, !organize_file_spec.
  destruct (decide (Forall record_line (lines text))); [|done].
  rewrite !M_bind_eq.
  specialize (IH (locals_after 0 (lines text) vars1)
                 (locals_after 0 (lines text) vars2) w).
  destruct (organize_files _ _ _ gfs (locals_after 0 (lines text) vars1) w)
    as [[more1|e1] w1];
  destruct (organize_files _ _ _ gfs (locals_after 0 (lines text) vars2) w)
    as [[more2|e2] w2]; simpl in IH; try done;
    by injection IH as <-.
Qed.

End LinesAndLocals.
